(** * pyScienceMode2: the ScienceMode2 protocol engine of [RehastimGeneric]

    A shallow embedding of [pyScienceMode2/sciencemode.py] and the
    properties of its packet codec, packet reassembly, telemetry decoders,
    ring buffers and watchdog loop.

    Conventions of the embedding:
    - a Python [int] is a [Z]; [&], [|], [^] and [~] are [Z.land], [Z.lor],
      [Z.lxor] and [Z.lnot] (both sides use infinite two's complement);
    - a [list] of ints and a [bytes] object are both [list Z]; the
      conversion to [bytes] ([int.to_bytes(1, "little")]) is where values
      outside 0..255 are refused;
    - an exception is the [Raise] branch of [result];
    - [time.time()] reads a modelled clock holding a rational; the
      difference of two times is rounded as binary64 rounds it before it is
      compared, as the subtraction of two Python floats is. *)

From Stdlib Require Import ZArith QArith Qround Qpower Lqa Lia Bool String.
From stdpp Require Import base list.
From Equations Require Import Equations.

Local Open Scope Z_scope.

(** ** Python results and exceptions *)

Inductive py_exception : Set :=
| IndexError
| ValueError
| KeyError
| OverflowError.

Inductive result (A : Type) : Type :=
| Ok (a : A)
| Raise (e : py_exception).
Arguments Ok {A} a.
Arguments Raise {A} e.

Definition bind {A B : Type} (r : result A) (k : A -> result B) : result B :=
  match r with
  | Ok a => k a
  | Raise e => Raise e
  end.

Notation "x <- r ;; k" := (bind r (fun x => k))
  (at level 100, r at next level, right associativity).

(** [l[i]] for a non-negative index: [IndexError] out of range. *)
Definition getitem (l : list Z) (i : nat) : result Z :=
  match l !! i with
  | Some b => Ok b
  | None => Raise IndexError
  end.

(** [l[a:b]] for non-negative bounds: slicing never raises. *)
Definition slice (l : list Z) (a b : nat) : list Z := take (b - a) (drop a l).

(** [l.index(x)]: position of the first occurrence, [ValueError] if none. *)
Fixpoint index (x : Z) (l : list Z) : result nat :=
  match l with
  | [] => Raise ValueError
  | y :: l' => if Z.eqb y x then Ok 0%nat else i <- index x l' ;; Ok (S i)
  end.

(** [for i in range(n): s = body i s]. *)
Definition for_range {S : Type} (n : nat) (body : nat -> S -> S) (s : S) : S :=
  fold_left (fun s i => body i s) (seq 0 n) s.

(** ** Class attributes of [RehastimGeneric] *)

Definition START_BYTE : Z := 0xF0.
Definition STOP_BYTE : Z := 0x0F.
Definition STUFFING_BYTE : Z := 0x81.
Definition STUFFING_KEY : Z := 0x55.
Definition MAX_PACKET_BYTES : Z := 69.
Definition STUFFED_BYTES : list Z := [240; 15; 129; 85; 10].

(** [byte in self.STUFFED_BYTES]. *)
Definition in_STUFFED_BYTES (byte : Z) : bool := existsb (Z.eqb byte) STUFFED_BYTES.

(** ** Byte stuffing *)

(** [_stuff_byte]: [(byte & ~KEY) | (~byte & KEY)]. *)
Definition _stuff_byte (byte : Z) : Z :=
  Z.lor (Z.land byte (Z.lnot STUFFING_KEY)) (Z.land (Z.lnot byte) STUFFING_KEY).

(** [_stuff_packet_byte(packet, command_data)].  With [command_data] the
    loop builds a new list [packet_tmp]; without it the argument list is
    updated in place, slot by slot.  [packet[i]] is read with the total
    lookup: [i] ranges over [range(len(packet))] and neither loop changes
    the length of [packet]. *)
Definition _stuff_packet_byte (packet : list Z) (command_data : bool) : list Z :=
  if command_data then
    for_range (length packet)
      (fun i packet_tmp =>
         if in_STUFFED_BYTES (packet !!! i)
         then packet_tmp ++ [STUFFING_BYTE; _stuff_byte (packet !!! i)]
         else packet_tmp ++ [packet !!! i])
      []
  else
    for_range (length packet)
      (fun i packet =>
         if in_STUFFED_BYTES (packet !!! i)
         then <[i := _stuff_byte (packet !!! i)]> packet
         else packet)
      packet.

(** What one payload byte and one header byte become on the wire; the two
    loops of [_stuff_packet_byte] are proved equal to maps of these. *)
Definition stuffed_data_byte (b : Z) : list Z :=
  if in_STUFFED_BYTES b then [0x81; Z.lxor b 0x55] else [b].

Definition stuffed_header_byte (b : Z) : Z :=
  if in_STUFFED_BYTES b then Z.lxor b 0x55 else b.

(** ** Checksum

    [crccheck.crc.Crc8] (third-party package): width 8, polynomial 0x07,
    initial value 0, no reflection, no final XOR.  [crc8_process_byte] is
    the body of the loop of [CrcBase.process] for one input byte. *)
Definition crc8_shift (crc : Z) : Z :=
  if Z.eqb (Z.land crc 0x80) 0
  then Z.shiftl crc 1
  else Z.lxor (Z.shiftl crc 1) 0x07.

Definition crc8_process_byte (crc byte : Z) : Z :=
  Z.land (Nat.iter 8 crc8_shift (Z.lxor crc byte)) 0xFF.

Definition Crc8_calc (data : list Z) : Z := fold_left crc8_process_byte data 0.

(** ** Conversion to [bytes] *)

(** [byte.to_bytes(1, "little")]: [OverflowError] outside 0..255. *)
Definition to_bytes (byte : Z) : result Z :=
  if (0 <=? byte) && (byte <=? 255) then Ok byte else Raise OverflowError.

(** [b"".join([byte.to_bytes(1, "little") for byte in packet])]. *)
Fixpoint join_bytes (packet : list Z) : result (list Z) :=
  match packet with
  | [] => Ok []
  | byte :: rest => b <- to_bytes byte ;; bs <- join_bytes rest ;; Ok (b :: bs)
  end.

(** ** The object and its surroundings *)

(** One column of [motomed_values]: angle, speed, torque. *)
Record ActualValues : Set := mkActualValues {
  angle : Z;
  speed : Z;
  torque : Z
}.

(** One column of [last_phase_result]; a field the decoder sets to [None]
    is [None] here. *)
Record PhaseResult : Set := mkPhaseResult {
  passive_distance : option Z;
  active_distance : option Z;
  average_power : option Z;
  maximum_power : option Z;
  phase_duration : option Z;
  active_phase_duration : option Z;
  phase_work : option Z;
  success_value : option Z;
  symmetry : option Z;
  average_muscle_tone : option Z
}.

(** The attributes of a [RehastimGeneric] object that the modelled methods
    read or write.  The two arrays are lists of columns, [None] before the
    first sample. *)
Record Rehastim : Type := mkRehastim {
  time_last_cmd : Q;
  packet_count : Z;
  reha_connected : bool;
  packet_send_history : list Z;
  motomed_values : option (list ActualValues);
  last_phase_result : option (list PhaseResult)
}.

(** [__init__]: the initial attribute values. *)
Definition max_motomed_values : nat := 100.
Definition max_phase_result : nat := 1.

Definition Rehastim_init : Rehastim :=
  mkRehastim 0%Q 0 false [] None None.

(** The object together with the modelled clock read by [time.time()] and
    the packets handed to [port.write], oldest first. *)
Record World : Type := mkWorld {
  self : Rehastim;
  clock : Q;
  port_written : list (list Z)
}.

Definition set_reha_connected (v : bool) (w : World) : World :=
  let s := self w in
  mkWorld (mkRehastim (time_last_cmd s) (packet_count s) v (packet_send_history s)
                      (motomed_values s) (last_phase_result s))
          (clock w) (port_written w).

Definition set_motomed_values (v : option (list ActualValues)) (s : Rehastim) : Rehastim :=
  mkRehastim (time_last_cmd s) (packet_count s) (reha_connected s)
             (packet_send_history s) v (last_phase_result s).

Definition set_last_phase_result (v : option (list PhaseResult)) (s : Rehastim) : Rehastim :=
  mkRehastim (time_last_cmd s) (packet_count s) (reha_connected s)
             (packet_send_history s) (motomed_values s) v.

(** [a > b] on times. *)
Definition Qgt_bool (a b : Q) : bool := negb (Qle_bool a b).

(** *** Python floats

    A Python [float] is a binary64 number: 53 significant bits, the unit
    in the last place never below 2^-1074, results rounded to the nearest
    such number, ties to the one with an even significand.  [binary64 x] is
    the float nearest to the rational [x]; [a - b] on floats is
    [binary64 (a - b)] and a literal such as [1.2] is [binary64 1.2].  From
    2^1024 on the result stands for [inf]: it is only ever compared with
    0.5 and 1.2, and the comparison comes out as it does for [inf]. *)
Definition pow2 (e : Z) : Q := Qpower 2 e.

(** The integer [e] with [2^e <= x < 2^(e+1)], for [x > 0]. *)
Definition Qfloor_log2 (x : Q) : Z :=
  let e := Z.log2 (Qnum x) - Z.log2 (Zpos (Qden x)) in
  if Qle_bool (pow2 e) x then e else e - 1.

(** The nearest integer, ties to even. *)
Definition round_half_even (x : Q) : Z :=
  let f := Qfloor x in
  match Qcompare (x - inject_Z f) (1 # 2) with
  | Lt => f
  | Gt => f + 1
  | Eq => if Z.even f then f else f + 1
  end.

Definition binary64_pos (x : Q) : Q :=
  let q := Z.max (Qfloor_log2 x - 52) (-1074) in
  let r := (inject_Z (round_half_even (x / pow2 q)) * pow2 q)%Q in
  if Qle_bool (pow2 1024) r then pow2 1024 else r.

Definition binary64 (x : Q) : Q :=
  match Qcompare x 0 with
  | Eq => 0%Q
  | Gt => binary64_pos x
  | Lt => (- binary64_pos (- x))%Q
  end.

(** ** Telemetry decoders *)

(** Modelled from the spec: [signed_int] of [pyScienceMode2/utils.py] is
    not under src/.  The spec calls the decoded fields signed integers; the
    byte slice is read as a big-endian two's complement number, the empty
    slice as 0. *)
Definition signed_int (packet : list Z) : Z :=
  let u := fold_left (fun acc b => acc * 256 + b) packet 0 in
  let bits := 8 * Z.of_nat (length packet) in
  if bits =? 0 then 0
  else if 2 ^ (bits - 1) <=? u then u - 2 ^ bits else u.

(** The first half of [_actual_values_ack]: the three fields.  In Python
    [a + b ^ k] is [(a + b) ^ k]. *)
Definition decode_actual_values (packet : list Z) : result ActualValues :=
  p8 <- getitem packet 8 ;;
  ac <- (if p8 =? 129 then
           p9 <- getitem packet 9 ;;
           Ok (Z.lxor (255 * signed_int (slice packet 7 8) + p9) STUFFING_KEY, 1%nat)
         else
           Ok (255 * signed_int (slice packet 7 8) + p8, 0%nat)) ;;
  let angle := fst ac in
  let count := snd ac in
  ps <- getitem packet (10 + count) ;;
  sc <- (if ps =? 129 then
           Ok (Z.lxor (signed_int (slice packet (10 + count + 1) (10 + count + 2)))
                      STUFFING_KEY, (count + 1)%nat)
         else
           Ok (signed_int (slice packet 10 11), count)) ;;
  let speed := fst sc in
  let count := snd sc in
  pt <- getitem packet (12 + count) ;;
  let torque :=
    if pt =? 129 then
      Z.lxor (signed_int (slice packet (12 + count + 1) (12 + count + 2))) STUFFING_KEY
    else signed_int (slice packet 12 13) in
  Ok (mkActualValues angle speed torque).

(** The [if / elif / else] that ends both decoders: store the first
    column, append while fewer than [max] columns are held, otherwise drop
    column 0 and append. *)
Definition append_column {A : Type} (max : nat) (values : option (list A)) (column : A)
  : option (list A) :=
  match values with
  | None => Some [column]
  | Some held =>
      if (length held <? max)%nat then Some (held ++ [column])
      else Some (drop 1 held ++ [column])
  end.

Definition _actual_values_ack (s : Rehastim) (packet : list Z) : result Rehastim :=
  actual_values <- decode_actual_values packet ;;
  Ok (set_motomed_values (append_column max_motomed_values (motomed_values s) actual_values) s).

Definition decode_phase_result (packet : list Z) : result PhaseResult :=
  msb_passive_distance <- getitem packet 8 ;;
  lsb_passive_distance <- getitem packet 9 ;;
  msb_active_distance <- getitem packet 10 ;;
  lsb_active_distance <- getitem packet 11 ;;
  average_power <- getitem packet 12 ;;
  maximum_power <- getitem packet 13 ;;
  msb_phase_duration <- getitem packet 14 ;;
  lsb_phase_duration <- getitem packet 15 ;;
  msb_active_phase_duration <- getitem packet 16 ;;
  lsb_active_phase_duration <- getitem packet 17 ;;
  msb_phase_work <- getitem packet 18 ;;
  lsb_phase_work <- getitem packet 19 ;;
  success_value <- getitem packet 20 ;;
  symmetry <- getitem packet 21 ;;
  average_muscle_tone <- getitem packet 22 ;;
  let passive_distance := msb_passive_distance * 255 + lsb_passive_distance in
  Ok (mkPhaseResult (Some passive_distance) None (Some average_power)
        (Some maximum_power) None None None (Some success_value) (Some symmetry)
        (Some average_muscle_tone)).

Definition _phase_result_ack (s : Rehastim) (packet : list Z) : result Rehastim :=
  column <- decode_phase_result packet ;;
  Ok (set_last_phase_result (append_column max_phase_result (last_phase_result s) column) s).

(** ** Packet construction and sending *)

Section Commands.

(** The command table [Type] of [pyScienceMode2/enums.py] is not under
    src/: [Type_value name] is [Type[name].value], [None] when [Type] has
    no member of that name (a [KeyError] in Python). *)
Variable Type_value : string -> option Z.

(** [_packet_construction(packet_count, packet_type, packet_data)];
    [packet_data] is [None] when the caller leaves it out. *)
Definition _packet_construction (packet_count : Z) (packet_type : string)
    (packet_data : option (list Z)) : result (list Z) :=
  let packet := [START_BYTE] in
  packet_command <- match Type_value packet_type with
                    | Some v => Ok v
                    | None => Raise KeyError
                    end ;;
  let packet_payload := [packet_count; packet_command] in
  let packet_payload := _stuff_packet_byte packet_payload false in
  let packet_payload :=
    match packet_data with
    | Some packet_data => packet_payload ++ _stuff_packet_byte packet_data true
    | None => packet_payload
    end in
  let checksum := Crc8_calc packet_payload in
  let checksum := _stuff_byte checksum in
  let data_length := _stuff_byte (Z.of_nat (length packet_payload)) in
  join_bytes (packet ++ [STUFFING_BYTE] ++ [checksum] ++ [STUFFING_BYTE] ++ [data_length]
                ++ packet_payload ++ [STOP_BYTE]).

Definition _init_ack (packet_count : Z) : result (list Z) :=
  _packet_construction packet_count "InitAck" (Some [0]).

Definition _packet_watchdog (s : Rehastim) : result (list Z) :=
  _packet_construction (packet_count s) "Watchdog" None.

(** [_send_generic_packet(cmd, packet, packet_number)].  The logging
    branch ([show_log], off by default) and the two [threading.Event]
    objects are left out; of [_start_watchdog] only the assignment
    [reha_connected = True] is kept, the thread it starts is [_watchdog]
    below. *)
Definition _send_generic_packet (cmd : string) (packet : list Z) (packet_number : Z)
    (w : World) : result World :=
  pw <- (if String.eqb cmd "InitAck" then
           packet <- _init_ack packet_number ;;
           Ok (packet, set_reha_connected true w)
         else if String.eqb cmd "Watchdog" then
           packet <- _packet_watchdog (self w) ;;
           Ok (packet, w)
         else Ok (packet, w)) ;;
  let packet := fst pw in
  let w := snd pw in
  let written := port_written w ++ [packet] in
  let connected := if String.eqb cmd "InitAck" then true else reha_connected (self w) in
  let s := self w in
  Ok (mkWorld
        (mkRehastim (clock w) ((packet_count s + 1) mod 256) connected packet
                    (motomed_values s) (last_phase_result s))
        (clock w) written).

(** [is_connected()]: the result and the object after the call.  The
    test is [self.time_last_cmd - time.time() > 1.2] on floats. *)
Definition is_connected (w : World) : bool * World :=
  if Qgt_bool (binary64 (time_last_cmd (self w) - clock w)) (binary64 1.2)
     || negb (reha_connected (self w))
  then (false, set_reha_connected false w)
  else (true, w).

(** [time.sleep(seconds)] advances the modelled clock. *)
Definition sleep (seconds : Q) (w : World) : World :=
  mkWorld (self w) (clock w + seconds)%Q (port_written w).

(** The body of the [while] loop of [_watchdog].  The test is
    [time.time() - self.time_last_cmd > 0.5] on floats; 0.5 is a float. *)
Definition watchdog_body (w : World) : result World :=
  if Qgt_bool (binary64 (clock w - time_last_cmd (self w))) 0.5 then
    w <- _send_generic_packet "Watchdog" [] (packet_count (self w)) w ;;
    Ok (sleep 0.5 w)
  else Ok w.

(** Whether the loop goes on after an evaluation of its condition. *)
Inductive loop_state : Set := Stopped | Running.

(** One turn of [while 1 and self.is_connected(): ...]: the condition,
    and the body when it holds. *)
Definition watchdog_iteration (w : World) : result (loop_state * World) :=
  let cw := is_connected w in
  if fst cw then
    w <- watchdog_body (snd cw) ;;
    Ok (Running, w)
  else Ok (Stopped, snd cw).

(** [_watchdog()], the thread body.  The loop itself never advances the
    clock outside [time.sleep] and never clears the flag unless
    [is_connected] does; what the other threads and the passing of time do
    before each evaluation of the loop condition is the schedule [others],
    one entry per iteration.  [Running] in the result means that the
    schedule ran out with the loop still going. *)
Fixpoint _watchdog (others : list (World -> World)) (w : World)
  : result (loop_state * World) :=
  match others with
  | [] => Ok (Running, w)
  | other :: others =>
      sw <- watchdog_iteration (other w) ;;
      match fst sw with
      | Running => _watchdog others (snd sw)
      | Stopped => Ok (Stopped, snd sw)
      end
  end.

End Commands.

(** ** Packet reassembly *)

(** The first loop of [_read_packet]: read until a read returns nothing
    while the bytes gathered so far end with [STOP_BYTE].  [reads] holds
    what the successive calls of [port.read] return; once it is used up
    every read returns no byte.  The loop has no bound of its own, so the
    model takes [fuel]: [None] means the loop was still going. *)
Fixpoint read_until_idle (fuel : nat) (packet : list Z) (reads : list (list Z))
  : option (list Z * list (list Z)) :=
  match fuel with
  | O => None
  | S fuel =>
      let packet_tmp := hd [] reads in
      let reads := tl reads in
      if negb (length packet_tmp =? 0)%nat then
        read_until_idle fuel (packet ++ packet_tmp) reads
      else if match last packet with
              | Some b => b =? STOP_BYTE
              | None => false
              end
      then Some (packet, reads)
      else read_until_idle fuel packet reads
  end.

(** The inner [while len(packet_tmp) != 0] loop: cut at each stop byte. *)
Equations? split_packets (packet_tmp : list Z) (packet_list : list (list Z))
  : result (list (list Z)) by wf (length packet_tmp) lt :=
  split_packets [] packet_list := Ok packet_list;
  split_packets (b :: rest) packet_list with index STOP_BYTE (b :: rest) => {
    | Raise e := Raise e;
    | Ok next_stop_byte :=
        split_packets (drop (next_stop_byte + 1) (b :: rest))
                      (packet_list ++ [take (next_stop_byte + 1) (b :: rest)]) }.
Proof.
  rewrite length_drop. cbn [length]. lia.
Qed.

(** The second half of [_read_packet], from [packet_list = []] on.  A
    buffer of 8 bytes or fewer falls off the end of the function, which
    returns Python's [None]. *)
Definition reassemble (packet : list Z) : result (option (list (list Z))) :=
  let packet_list := [] in
  if (8 <? length packet)%nat then
    first_start_byte <- index START_BYTE packet ;;
    let packet_tmp := drop first_start_byte packet in
    packet_list <- split_packets packet_tmp packet_list ;;
    Ok (Some packet_list)
  else Ok None.

(** [_read_packet()]: [None] when the first loop is still going after
    [fuel] reads, otherwise the result and the reads left. *)
Definition _read_packet (fuel : nat) (reads : list (list Z))
  : option (result (option (list (list Z))) * list (list Z)) :=
  match read_until_idle fuel [] reads with
  | None => None
  | Some (packet, reads) => Some (reassemble packet, reads)
  end.

(** ** Vocabulary of the statements *)

(** A value that fits one byte. *)
Definition is_byte (b : Z) : Prop := 0 <= b <= 255.

(** The payload block of a packet: the two header bytes stuffed in place,
    then the stuffed data bytes. *)
Definition payload_block (packet_count packet_command : Z) (packet_data : option (list Z))
  : list Z :=
  map stuffed_header_byte [packet_count; packet_command]
  ++ concat (map stuffed_data_byte (default [] packet_data)).

(** A command table for the examples: the two commands that
    [RehastimGeneric] sends by name, with their ScienceMode2 codes. *)
Definition Type_example (name : string) : option Z :=
  if String.eqb name "InitAck" then Some 2
  else if String.eqb name "Watchdog" then Some 4
  else None.

(** A complete packet as the reassembly sees it: at least the 8 bytes of
    an empty-payload packet (start, two stuffed bytes for the checksum, two
    for the length, two header bytes, stop), the start byte first, and the
    first stop byte is the last byte. *)
Definition complete_packet (packet : list Z) : bool :=
  (8 <=? length packet)%nat
  && match packet with
     | b :: _ => b =? START_BYTE
     | [] => false
     end
  && match index STOP_BYTE packet with
     | Ok i => (S i =? length packet)%nat
     | Raise _ => false
     end.

(** What a ring buffer of capacity [max] holds once [inserted] has gone
    in, oldest first: nothing before the first insertion, then the last
    [max] of them. *)
Definition latest {A : Type} (max : nat) (inserted : list A) : option (list A) :=
  match inserted with
  | [] => None
  | _ => Some (drop (length inserted - max) inserted)
  end.

(** One decoder called on each packet of a list in turn, as the loop
    [for packet in packets] of [_catch_motomed_data] does for the packets
    of one command code; an exception ends the run. *)
Fixpoint receive_all (ack : Rehastim -> list Z -> result Rehastim) (s : Rehastim)
    (packets : list (list Z)) : result Rehastim :=
  match packets with
  | [] => Ok s
  | packet :: packets => s <- ack s packet ;; receive_all ack s packets
  end.


(** ** Acknowledgements and the Motomed thread *)

(** The attributes that hand a received packet to the caller: the two
    mailboxes and the two [threading.Event] flags. *)
Record Mailboxes : Type := mkMailboxes {
  last_ack : option (list Z);
  last_init_ack : option (list Z);
  event : bool;
  event_ack : bool
}.

(** [__init__]: both mailboxes [None], both events clear. *)
Definition Mailboxes_init : Mailboxes := mkMailboxes None None false false.

(** [_get_last_ack(init)] when [is_motomed_connected]: take the packet
    out of the mailbox and set the mailbox to [None].  While the mailbox is
    false ([None] or an empty packet) the method spins in
    [while not ...: pass]; only another thread can end that, so the model
    returns [None] for it. *)
Definition _get_last_ack_motomed (init : bool) (m : Mailboxes)
  : option (list Z * Mailboxes) :=
  if init then
    match last_init_ack m with
    | Some (b :: rest) =>
        Some (b :: rest, mkMailboxes (last_ack m) None (event m) (event_ack m))
    | _ => None
    end
  else
    match last_ack m with
    | Some (b :: rest) =>
        Some (b :: rest, mkMailboxes None (last_init_ack m) (event m) (event_ack m))
    | _ => None
    end.


Section Dispatch.

(** [Type[name].value] as before, and [[t.value for t in self.Type]]. *)
Variable Type_value : string -> option Z.
Variable Type_values : list Z.

Definition Type_getitem (name : string) : result Z :=
  match Type_value name with
  | Some v => Ok v
  | None => Raise KeyError
  end.

(** The body of [for packet in packets] in [_catch_motomed_data], on the
    object and its mailboxes (the logging branch is left out). *)
Definition dispatch_packet (sm : Rehastim * Mailboxes) (packet : list Z)
  : result (Rehastim * Mailboxes) :=
  let s := fst sm in
  let m := snd sm in
  if (7 <? length packet)%nat then
    p6 <- getitem packet 6 ;;
    phase <- Type_getitem "PhaseResult" ;;
    if p6 =? phase then
      s <- _phase_result_ack s packet ;; Ok (s, m)
    else
      actual <- Type_getitem "ActualValues" ;;
      if p6 =? actual then
        s <- _actual_values_ack s packet ;; Ok (s, m)
      else if p6 =? 90 then Ok sm
      else
        done <- Type_getitem "MotomedCommandDone" ;;
        if p6 =? done then
          Ok (s, mkMailboxes (last_ack m) (last_init_ack m) true (event_ack m))
        else if existsb (Z.eqb p6) Type_values then
          if p6 =? 1 then
            Ok (s, mkMailboxes (last_ack m) (Some packet) (event m) true)
          else
            Ok (s, mkMailboxes (Some packet) (last_init_ack m) (event m) true)
        else Ok sm
  else Ok sm.

(** [if packets: for packet in packets: ...] on what [_read_packet]
    returned. *)
Fixpoint dispatch_list (sm : Rehastim * Mailboxes) (packets : list (list Z))
  : result (Rehastim * Mailboxes) :=
  match packets with
  | [] => Ok sm
  | packet :: packets => sm <- dispatch_packet sm packet ;; dispatch_list sm packets
  end.

Definition dispatch_all (sm : Rehastim * Mailboxes) (packets : option (list (list Z)))
  : result (Rehastim * Mailboxes) :=
  match packets with
  | Some packets => dispatch_list sm packets
  | None => Ok sm
  end.

End Dispatch.

(** [_stop_watchdog] up to the [join]: the flag is cleared; [disconnect]
    calls it first. *)
Definition _stop_watchdog (w : World) : World := set_reha_connected false w.

(** Commands sent one after the other, each with the current
    [packet_count] as its packet number; an exception ends the run. *)
Fixpoint send_all (Type_value : string -> option Z) (commands : list (string * list Z))
    (w : World) : result World :=
  match commands with
  | [] => Ok w
  | (cmd, packet) :: commands =>
      w <- _send_generic_packet Type_value cmd packet (packet_count (self w)) w ;;
      send_all Type_value commands w
  end.

(** The number of bytes of a list that [_stuff_packet_byte] has to
    stuff. *)
Definition count_stuffed (packet : list Z) : nat :=
  length (List.filter in_STUFFED_BYTES packet).

(** A packet long enough to be dispatched (more than 7 bytes) whose byte
    6, the command byte, is [c]. *)
Definition has_code (packet : list Z) (c : Z) : Prop :=
  (7 < length packet)%nat /\ packet !! 6%nat = Some c.

(** A command byte that the dispatch loop puts into [last_ack]: in the
    table, and none of the codes handled before. *)
Definition is_ack_code (phase actual done : Z) (Type_values : list Z) (c : Z) : Prop :=
  c <> phase /\ c <> actual /\ c <> 90 /\ c <> done /\ In c Type_values /\ c <> 1.

(** What the watchdog loop relies on from one turn to the next: the flag
    is set, the packet counter fits one byte, and the last command was not
    sent after the current time. *)
Definition watchdog_ready (w : World) : Prop :=
  reha_connected (self w) = true /\
  is_byte (packet_count (self w)) /\
  (time_last_cmd (self w) <= clock w)%Q.
(** * Properties *)

(** ** Properties of the stuffing step *)

Lemma stuff_byte_lxor (byte : Z) : _stuff_byte byte = Z.lxor byte STUFFING_KEY.
Proof.
  unfold _stuff_byte. apply Z.bits_inj'. intros n Hn.
  rewrite Z.lor_spec, !Z.land_spec, Z.lxor_spec, !Z.lnot_spec by assumption.
  destruct (Z.testbit byte n), (Z.testbit STUFFING_KEY n); reflexivity.
Qed.

Lemma stuff_byte_involutive (byte : Z) : _stuff_byte (_stuff_byte byte) = byte.
Proof.
  rewrite !stuff_byte_lxor, Z.lxor_assoc, Z.lxor_nilpotent. apply Z.lxor_0_r.
Qed.

Lemma in_STUFFED_BYTES_spec (byte : Z) :
  in_STUFFED_BYTES byte = true <->
  byte = 0xF0 \/ byte = 0x0F \/ byte = 0x81 \/ byte = 0x55 \/ byte = 0x0A.
Proof.
  unfold in_STUFFED_BYTES, STUFFED_BYTES. cbn [existsb].
  rewrite !orb_true_iff, !Z.eqb_eq. intuition discriminate.
Qed.

(** C6: on every byte value the escape transform is the XOR with 0x55 and
    is its own inverse, and it maps none of the five reserved bytes to a
    reserved byte. *)
Theorem stuff_byte_escape_transform (b : Z) (Hb : 0 <= b <= 255) :
  _stuff_byte b = Z.lxor b 0x55 /\
  _stuff_byte (_stuff_byte b) = b /\
  (In b [0xF0; 0x0F; 0x81; 0x55; 0x0A] ->
   ~ In (_stuff_byte b) [0xF0; 0x0F; 0x81; 0x55; 0x0A]).
Proof.
  split; [apply stuff_byte_lxor | split; [apply stuff_byte_involutive |]].
  intros Hin. cbn [In] in Hin.
  destruct Hin as [<-|[<-|[<-|[<-|[<-|[]]]]]]; vm_compute; intuition discriminate.
Qed.

Lemma stuff_byte_escape_transform_witness :
  0 <= 0x81 <= 255 /\
  _stuff_byte 0x81 = Z.lxor 0x81 0x55 /\
  _stuff_byte (_stuff_byte 0x81) = 0x81 /\
  (In 0x81 [0xF0; 0x0F; 0x81; 0x55; 0x0A] ->
   ~ In (_stuff_byte 0x81) [0xF0; 0x0F; 0x81; 0x55; 0x0A]).
Proof.
  split; [lia | apply (stuff_byte_escape_transform 0x81); lia].
Defined.

(** *** The two loops of [_stuff_packet_byte] as list functions *)

Lemma for_range_S {S : Type} (n : nat) (body : nat -> S -> S) (s : S) :
  for_range (Datatypes.S n) body s = body n (for_range n body s).
Proof.
  unfold for_range. rewrite seq_S, fold_left_app. reflexivity.
Qed.

Lemma stuff_data_prefix (packet : list Z) (n : nat) :
  (n <= length packet)%nat ->
  for_range n
    (fun i packet_tmp =>
       if in_STUFFED_BYTES (packet !!! i)
       then packet_tmp ++ [STUFFING_BYTE; _stuff_byte (packet !!! i)]
       else packet_tmp ++ [packet !!! i])
    [] = concat (map stuffed_data_byte (take n packet)).
Proof.
  induction n as [|n IH]; intros Hn.
  - rewrite take_0. reflexivity.
  - rewrite for_range_S, IH by lia.
    assert (Hl : packet !! n = Some (packet !!! n))
      by (apply list_lookup_lookup_total_lt; lia).
    rewrite (take_S_r _ _ _ Hl), map_app, concat_app. cbn [map concat].
    rewrite app_nil_r. unfold stuffed_data_byte.
    rewrite stuff_byte_lxor. destruct (in_STUFFED_BYTES (packet !!! n)); reflexivity.
Qed.

Lemma stuff_header_prefix (packet : list Z) (n : nat) :
  (n <= length packet)%nat ->
  for_range n
    (fun i packet =>
       if in_STUFFED_BYTES (packet !!! i)
       then <[i := _stuff_byte (packet !!! i)]> packet
       else packet)
    packet = map stuffed_header_byte (take n packet) ++ drop n packet.
Proof.
  induction n as [|n IH]; intros Hn.
  - rewrite take_0, drop_0. reflexivity.
  - rewrite for_range_S, IH by lia.
    assert (Hl : packet !! n = Some (packet !!! n))
      by (apply list_lookup_lookup_total_lt; lia).
    assert (Hlen : length (map stuffed_header_byte (take n packet)) = n)
      by (rewrite length_map, length_take; lia).
    rewrite (drop_S _ _ _ Hl), (take_S_r _ _ _ Hl), map_app. cbn [map].
    set (pre := map stuffed_header_byte (take n packet)) in *.
    set (b := packet !!! n) in *.
    assert (Hb : (pre ++ b :: drop (S n) packet) !!! n = b).
    { apply list_lookup_total_correct.
      rewrite lookup_app_r by lia. rewrite Hlen, Nat.sub_diag. reflexivity. }
    rewrite Hb, <- app_assoc. cbn [app]. unfold stuffed_header_byte.
    destruct (in_STUFFED_BYTES b); [|reflexivity].
    rewrite insert_app_r_alt by lia. rewrite Hlen, Nat.sub_diag.
    cbn. rewrite stuff_byte_lxor. reflexivity.
Qed.

Lemma stuff_packet_byte_data (packet : list Z) :
  _stuff_packet_byte packet true = concat (map stuffed_data_byte packet).
Proof.
  unfold _stuff_packet_byte. rewrite stuff_data_prefix by lia.
  rewrite firstn_all. reflexivity.
Qed.

Lemma stuff_packet_byte_header (packet : list Z) :
  _stuff_packet_byte packet false = map stuffed_header_byte packet.
Proof.
  unfold _stuff_packet_byte. rewrite stuff_header_prefix by lia.
  rewrite firstn_all, drop_all, app_nil_r. reflexivity.
Qed.

(** C5: in payload-data mode every reserved byte becomes the marker 0x81
    followed by the byte XOR 0x55 and every other byte is kept; in header
    mode every reserved byte is replaced in place by its XOR with 0x55 and
    no marker is inserted. *)
Theorem stuff_packet_byte_spec (packet : list Z) :
  _stuff_packet_byte packet true =
    concat (map (fun b => if in_STUFFED_BYTES b then [0x81; Z.lxor b 0x55] else [b])
                packet) /\
  _stuff_packet_byte packet false =
    map (fun b => if in_STUFFED_BYTES b then Z.lxor b 0x55 else b) packet /\
  (forall b, in_STUFFED_BYTES b = true <-> In b [0xF0; 0x0F; 0x81; 0x55; 0x0A]).
Proof.
  split; [|split].
  - apply stuff_packet_byte_data.
  - apply stuff_packet_byte_header.
  - intros b. rewrite in_STUFFED_BYTES_spec. cbn [In]. intuition.
Qed.

Example stuff_payload_F0 : _stuff_packet_byte [0xF0] true = [0x81; 0xA5].
Proof. reflexivity. Qed.

Example stuff_header_0F : _stuff_packet_byte [0x0F; 4] false = [0x5A; 4].
Proof. reflexivity. Qed.

(** ** Packet construction *)

Lemma lxor_key_byte (b : Z) : is_byte b -> is_byte (Z.lxor b 0x55).
Proof.
  unfold is_byte. intros [Hlo Hhi].
  assert (Hnn : 0 <= Z.lxor b 0x55) by (apply Z.lxor_nonneg; lia).
  split; [assumption|].
  destruct (Z.eq_dec (Z.lxor b 0x55) 0) as [->|Hne]; [lia|].
  assert (Hlog : Z.log2 (Z.lxor b 0x55) < 8).
  { eapply Z.le_lt_trans; [apply Z.log2_lxor; lia|].
    apply Z.max_lub_lt; [|reflexivity].
    destruct (Z.eq_dec b 0) as [->|Hb]; [reflexivity|].
    apply Z.log2_lt_pow2; lia. }
  apply Z.log2_lt_pow2 in Hlog; lia.
Qed.

Lemma stuff_byte_is_byte (b : Z) : is_byte b -> is_byte (_stuff_byte b).
Proof. rewrite stuff_byte_lxor. apply lxor_key_byte. Qed.

Lemma land_255_is_byte (x : Z) : is_byte (Z.land x 0xFF).
Proof.
  unfold is_byte. change 0xFF with (Z.ones 8).
  rewrite Z.land_ones by lia. change (2 ^ 8) with 256. change (Z.ones 8) with 255.
  pose proof (Z.mod_pos_bound x 256). lia.
Qed.

Lemma Crc8_calc_from_is_byte (data : list Z) (crc : Z) :
  is_byte crc -> is_byte (fold_left crc8_process_byte data crc).
Proof.
  revert crc. induction data as [|b data IH]; intros crc Hc; [exact Hc|].
  cbn [fold_left]. apply IH, land_255_is_byte.
Qed.

Lemma Crc8_calc_is_byte (data : list Z) : is_byte (Crc8_calc data).
Proof. apply Crc8_calc_from_is_byte. unfold is_byte. lia. Qed.

(** The check value of the CRC-8 catalogue entry. *)
Example Crc8_calc_check : Crc8_calc [49; 50; 51; 52; 53; 54; 55; 56; 57] = 0xF4.
Proof. reflexivity. Qed.

Lemma to_bytes_is_byte (b : Z) : is_byte b -> to_bytes b = Ok b.
Proof.
  unfold is_byte, to_bytes. intros [Hlo Hhi].
  apply Z.leb_le in Hlo, Hhi. rewrite Hlo, Hhi. reflexivity.
Qed.

Lemma join_bytes_is_byte (packet : list Z) :
  Forall is_byte packet -> join_bytes packet = Ok packet.
Proof.
  induction 1 as [|b packet Hb _ IH]; [reflexivity|].
  cbn [join_bytes]. rewrite (to_bytes_is_byte _ Hb), IH. reflexivity.
Qed.

Lemma join_bytes_overflow (pre post : list Z) (b : Z) :
  Forall is_byte pre -> 255 < b -> join_bytes (pre ++ b :: post) = Raise OverflowError.
Proof.
  intros Hpre Hb. induction Hpre as [|x pre Hx _ IH].
  - cbn. unfold to_bytes.
    replace (b <=? 255) with false by (symmetry; apply Z.leb_gt; lia).
    rewrite andb_false_r. reflexivity.
  - cbn [app join_bytes]. rewrite (to_bytes_is_byte _ Hx), IH. reflexivity.
Qed.

(** Split a goal [Forall is_byte l] along the shape of [l]. *)
Ltac all_bytes :=
  repeat first [apply Forall_nil_2 | apply Forall_cons_2 | apply Forall_app_2].

Lemma stuffed_header_byte_is_byte (b : Z) : is_byte b -> is_byte (stuffed_header_byte b).
Proof.
  intros Hb. unfold stuffed_header_byte.
  destruct (in_STUFFED_BYTES b); [apply lxor_key_byte|]; assumption.
Qed.

Lemma stuffed_data_is_byte (data : list Z) :
  Forall is_byte data -> Forall is_byte (concat (map stuffed_data_byte data)).
Proof.
  induction 1 as [|b data Hb _ IH]; [constructor|].
  cbn [map concat]. apply Forall_app. split; [|exact IH].
  unfold stuffed_data_byte. destruct (in_STUFFED_BYTES b).
  - all_bytes; [unfold is_byte; lia | apply lxor_key_byte; assumption].
  - all_bytes; assumption.
Qed.

Lemma payload_block_is_byte (packet_count packet_command : Z) (packet_data : option (list Z)) :
  is_byte packet_count -> is_byte packet_command ->
  Forall is_byte (default [] packet_data) ->
  Forall is_byte (payload_block packet_count packet_command packet_data).
Proof.
  intros Hc Hk Hd. unfold payload_block. apply Forall_app. split.
  - cbn [map]. all_bytes; apply stuffed_header_byte_is_byte; assumption.
  - apply stuffed_data_is_byte, Hd.
Qed.

Section CommandsFacts.

Variable Type_value : string -> option Z.

(** The list that [_packet_construction] hands to the conversion to
    [bytes]. *)
Lemma packet_construction_unfold (packet_count packet_command : Z) (packet_type : string)
    (packet_data : option (list Z)) :
  Type_value packet_type = Some packet_command ->
  let block := payload_block packet_count packet_command packet_data in
  _packet_construction Type_value packet_count packet_type packet_data =
  join_bytes ([0xF0; 0x81; Z.lxor (Crc8_calc block) 0x55; 0x81;
               Z.lxor (Z.of_nat (length block)) 0x55] ++ block ++ [0x0F]).
Proof.
  intros HT block. unfold _packet_construction. rewrite HT. cbn [bind].
  rewrite stuff_packet_byte_header, !stuff_byte_lxor.
  assert (Hblock :
    match packet_data with
    | Some packet_data0 =>
        map stuffed_header_byte [packet_count; packet_command]
        ++ _stuff_packet_byte packet_data0 true
    | None => map stuffed_header_byte [packet_count; packet_command]
    end = block).
  { unfold block, payload_block. destruct packet_data as [d|]; cbn [default].
    - rewrite stuff_packet_byte_data. reflexivity.
    - cbn [map concat]. rewrite app_nil_r. reflexivity. }
  rewrite Hblock. reflexivity.
Qed.

Lemma packet_construction_ok (packet_count packet_command : Z) (packet_type : string)
    (packet_data : option (list Z)) :
  Type_value packet_type = Some packet_command ->
  is_byte packet_count -> is_byte packet_command ->
  Forall is_byte (default [] packet_data) ->
  let block := payload_block packet_count packet_command packet_data in
  (length block <= 255)%nat ->
  _packet_construction Type_value packet_count packet_type packet_data =
  Ok ([0xF0; 0x81; Z.lxor (Crc8_calc block) 0x55; 0x81;
       Z.lxor (Z.of_nat (length block)) 0x55] ++ block ++ [0x0F]).
Proof.
  intros HT Hc Hk Hd block Hlen.
  rewrite (packet_construction_unfold _ _ _ _ HT). cbv zeta. fold block.
  apply join_bytes_is_byte.
  assert (Hb : Forall is_byte block) by (apply payload_block_is_byte; assumption).
  clearbody block.
  all_bytes; try exact Hb; try (unfold is_byte; lia).
  - apply lxor_key_byte, Crc8_calc_is_byte.
  - apply lxor_key_byte. unfold is_byte. lia.
Qed.

End CommandsFacts.

(** C4: for a sequence number and a command code that fit one byte, a
    payload of bytes and a payload block of at most 255 bytes, the encoder
    returns exactly: 0xF0; 0x81 and the CRC-8 of the payload block XOR
    0x55; 0x81 and the length of the payload block XOR 0x55; the payload
    block (header bytes stuffed in place, then the stuffed payload bytes);
    0x0F. *)
Theorem packet_construction_layout (Type_value : string -> option Z)
    (packet_count packet_command : Z) (packet_type : string)
    (packet_data : option (list Z)) :
  Type_value packet_type = Some packet_command ->
  is_byte packet_count -> is_byte packet_command ->
  Forall is_byte (default [] packet_data) ->
  (length (payload_block packet_count packet_command packet_data) <= 255)%nat ->
  let block :=
    map (fun b => if in_STUFFED_BYTES b then Z.lxor b 0x55 else b)
        [packet_count; packet_command]
    ++ concat (map (fun b => if in_STUFFED_BYTES b then [0x81; Z.lxor b 0x55] else [b])
                   (default [] packet_data)) in
  _packet_construction Type_value packet_count packet_type packet_data =
  Ok ([START_BYTE]
      ++ [STUFFING_BYTE; Z.lxor (Crc8_calc block) STUFFING_KEY]
      ++ [STUFFING_BYTE; Z.lxor (Z.of_nat (length block)) STUFFING_KEY]
      ++ block
      ++ [STOP_BYTE]).
Proof.
  intros HT Hc Hk Hd Hlen block.
  exact (packet_construction_ok Type_value _ _ _ _ HT Hc Hk Hd Hlen).
Qed.

Lemma packet_construction_layout_witness :
  _packet_construction Type_example 3 "Watchdog" None =
  Ok [0xF0; 0x81; 0x76; 0x81; 0x57; 3; 4; 0x0F].
Proof.
  apply (packet_construction_layout Type_example 3 4 "Watchdog" None).
  - reflexivity.
  - unfold is_byte. lia.
  - unfold is_byte. lia.
  - apply Forall_nil_2.
  - vm_compute. lia.
Defined.

Example init_ack_packet :
  _init_ack Type_example 3 = Ok [0xF0; 0x81; 0xC2; 0x81; 0x56; 3; 2; 0; 0x0F].
Proof. reflexivity. Qed.

Lemma is_byte_repeat (b : Z) (n : nat) : is_byte b -> Forall is_byte (repeat b n).
Proof.
  intros Hb. induction n as [|n IH]; cbn [repeat]; all_bytes; assumption.
Qed.

Lemma lxor_key_above_byte (n : Z) : 255 < n -> 255 < Z.lxor n 0x55.
Proof.
  intros Hn. destruct (Z.le_gt_cases (Z.lxor n 0x55) 255) as [Hle|Hgt]; [|lia].
  assert (Hb : is_byte (Z.lxor n 0x55)).
  { split; [apply Z.lxor_nonneg; lia | exact Hle]. }
  apply lxor_key_byte in Hb.
  rewrite Z.lxor_assoc, Z.lxor_nilpotent, Z.lxor_0_r in Hb.
  unfold is_byte in Hb. lia.
Qed.

(** C3, as the code has it: the encoder never compares a length with
    [MAX_PACKET_BYTES].  For header values and payload bytes that fit one
    byte it returns a frame of 6 bytes more than the payload block whenever
    that block has at most 255 bytes, also beyond 69 bytes in all; a longer
    block makes the conversion of the length byte raise [OverflowError]. *)
Theorem packet_construction_no_length_check (Type_value : string -> option Z)
    (packet_count packet_command : Z) (packet_type : string)
    (packet_data : option (list Z)) :
  Type_value packet_type = Some packet_command ->
  is_byte packet_count -> is_byte packet_command ->
  Forall is_byte (default [] packet_data) ->
  let n := length (payload_block packet_count packet_command packet_data) in
  ((n <= 255)%nat ->
   exists frame,
     _packet_construction Type_value packet_count packet_type packet_data = Ok frame /\
     length frame = (n + 6)%nat) /\
  ((255 < n)%nat ->
   _packet_construction Type_value packet_count packet_type packet_data =
   Raise OverflowError).
Proof.
  intros HT Hc Hk Hd n. split; intros Hn.
  - eexists. split.
    + exact (packet_construction_ok Type_value _ _ _ _ HT Hc Hk Hd Hn).
    + cbn [app length]. rewrite length_app. cbn [length]. fold n. lia.
  - rewrite (packet_construction_unfold _ _ _ _ _ HT). cbv zeta.
    set (block := payload_block packet_count packet_command packet_data) in *.
    apply (join_bytes_overflow [0xF0; 0x81; Z.lxor (Crc8_calc block) 0x55; 0x81]).
    + all_bytes; try (unfold is_byte; lia).
      apply lxor_key_byte, Crc8_calc_is_byte.
    + apply lxor_key_above_byte. fold n. lia.
Qed.

Lemma packet_construction_no_length_check_witness :
  (exists frame,
     _packet_construction Type_example 3 "Watchdog" (Some [0xF0; 7]) = Ok frame /\
     length frame = 11%nat) /\
  (exists frame,
     _packet_construction Type_example 3 "Watchdog" (Some (repeat 0 70)) = Ok frame /\
     length frame = 78%nat) /\
  _packet_construction Type_example 3 "Watchdog" (Some (repeat 0 254)) =
  Raise OverflowError.
Proof.
  assert (H3 : is_byte 3) by (unfold is_byte; lia).
  assert (H4 : is_byte 4) by (unfold is_byte; lia).
  split; [|split].
  - apply (proj1 (packet_construction_no_length_check Type_example 3 4 "Watchdog"
                    (Some [0xF0; 7]) eq_refl H3 H4
                    ltac:(all_bytes; unfold is_byte; lia))).
    vm_compute. lia.
  - apply (proj1 (packet_construction_no_length_check Type_example 3 4 "Watchdog"
                    (Some (repeat 0 70)) eq_refl H3 H4
                    ltac:(apply is_byte_repeat; unfold is_byte; lia))).
    vm_compute. lia.
  - apply (proj2 (packet_construction_no_length_check Type_example 3 4 "Watchdog"
                    (Some (repeat 0 254)) eq_refl H3 H4
                    ltac:(apply is_byte_repeat; unfold is_byte; lia))).
    vm_compute. lia.
Defined.

(** C3, counterexample: a payload of 64 bytes gives a payload block of 66
    bytes and a frame of 72 bytes, more than [MAX_PACKET_BYTES], and the
    encoder returns that frame. *)
Lemma packet_construction_builds_72_bytes :
  exists frame,
    _packet_construction Type_example 3 "Watchdog" (Some (repeat 0 64)) = Ok frame /\
    Z.of_nat (length frame) = 72 /\
    MAX_PACKET_BYTES < Z.of_nat (length frame).
Proof.
  eexists. split; [vm_compute; reflexivity|]. split; vm_compute; reflexivity.
Qed.

(** ** Packet reassembly *)

Lemma index_lt (x : Z) (l : list Z) (i : nat) : index x l = Ok i -> (i < length l)%nat.
Proof.
  revert i. induction l as [|y l IH]; intros i; cbn [index]; [discriminate|].
  destruct (y =? x); [intros [= <-]; cbn; lia|].
  destruct (index x l) as [j|e]; cbn [bind]; [|discriminate].
  intros [= <-]. specialize (IH j eq_refl). cbn. lia.
Qed.

Lemma index_lookup (x : Z) (l : list Z) (i : nat) : index x l = Ok i -> l !! i = Some x.
Proof.
  revert i. induction l as [|y l IH]; intros i; cbn [index]; [discriminate|].
  destruct (Z.eqb_spec y x) as [->|Hne]; [intros [= <-]; reflexivity|].
  destruct (index x l) as [j|e]; cbn [bind]; [|discriminate].
  intros [= <-]. cbn. apply IH. reflexivity.
Qed.

Lemma index_app_l (x : Z) (l r : list Z) (i : nat) :
  index x l = Ok i -> index x (l ++ r) = Ok i.
Proof.
  revert i. induction l as [|y l IH]; intros i; cbn [index app]; [discriminate|].
  destruct (y =? x); [trivial|].
  destruct (index x l) as [j|e]; cbn [bind]; [|discriminate].
  intros [= <-]. rewrite (IH j eq_refl). reflexivity.
Qed.

Lemma index_absent (x : Z) (l : list Z) : ~ In x l -> index x l = Raise ValueError.
Proof.
  induction l as [|y l IH]; intros Hn; cbn [index]; [reflexivity|].
  destruct (Z.eqb_spec y x) as [->|Hne]; [exfalso; apply Hn; left; reflexivity|].
  rewrite IH; [reflexivity|]. intros Hin. apply Hn. right. exact Hin.
Qed.

Lemma index_present (x : Z) (l : list Z) : In x l -> exists i, index x l = Ok i.
Proof.
  induction l as [|y l IH]; intros Hin; [destruct Hin|]. cbn [index].
  destruct (Z.eqb_spec y x) as [->|Hne]; [eexists; reflexivity|].
  destruct Hin as [->|Hin]; [congruence|].
  destruct (IH Hin) as [i ->]. eexists. reflexivity.
Qed.

(** One turn of the inner loop on a non-empty buffer. *)
Lemma split_packets_step (packet_tmp : list Z) (packet_list : list (list Z)) (i : nat) :
  index STOP_BYTE packet_tmp = Ok i ->
  split_packets packet_tmp packet_list =
  split_packets (drop (i + 1) packet_tmp) (packet_list ++ [take (i + 1) packet_tmp]).
Proof.
  intros Hi. destruct packet_tmp as [|b rest]; [discriminate|].
  rewrite split_packets_equation_2. rewrite Hi. reflexivity.
Qed.

Lemma split_packets_raise (packet_tmp : list Z) (packet_list : list (list Z)) :
  packet_tmp <> [] -> ~ In STOP_BYTE packet_tmp ->
  split_packets packet_tmp packet_list = Raise ValueError.
Proof.
  intros Hne Hn. destruct packet_tmp as [|b rest]; [congruence|].
  rewrite split_packets_equation_2, (index_absent _ _ Hn). reflexivity.
Qed.

Lemma complete_packet_inv (packet : list Z) :
  complete_packet packet = true ->
  (8 <= length packet)%nat /\
  (exists rest, packet = START_BYTE :: rest) /\
  (exists i, index STOP_BYTE packet = Ok i /\ S i = length packet).
Proof.
  unfold complete_packet. rewrite !andb_true_iff. intros [[Hlen Hstart] Hstop].
  apply Nat.leb_le in Hlen. split; [exact Hlen|]. split.
  - destruct packet as [|b rest]; [discriminate|].
    apply Z.eqb_eq in Hstart. subst b. eexists. reflexivity.
  - destruct (index STOP_BYTE packet) as [i|e]; [|discriminate].
    apply Nat.eqb_eq in Hstop. eexists. split; [reflexivity | exact Hstop].
Qed.

Lemma complete_packet_last (packet : list Z) :
  complete_packet packet = true -> last packet = Some STOP_BYTE.
Proof.
  intros H. destruct (complete_packet_inv _ H) as (_ & _ & i & Hi & Hlen).
  rewrite last_lookup, <- Hlen. cbn [pred]. apply index_lookup, Hi.
Qed.

(** The inner loop cuts a complete packet off the front of the buffer. *)
Lemma split_packets_complete (packet rest : list Z) (packet_list : list (list Z)) :
  complete_packet packet = true ->
  split_packets (packet ++ rest) packet_list = split_packets rest (packet_list ++ [packet]).
Proof.
  intros H. destruct (complete_packet_inv _ H) as (_ & _ & i & Hi & Hlen).
  rewrite (split_packets_step _ _ i) by (apply index_app_l, Hi).
  rewrite take_app_length', drop_app_length' by lia. reflexivity.
Qed.

Lemma read_until_idle_single (fuel : nat) (chunk : list Z) :
  (2 <= fuel)%nat -> last chunk = Some STOP_BYTE ->
  read_until_idle fuel [] [chunk] = Some (chunk, []).
Proof.
  intros Hfuel Hlast. destruct fuel as [|[|fuel]]; try lia.
  assert (Hne : (length chunk =? 0)%nat = false).
  { destruct chunk; [discriminate | reflexivity]. }
  cbn [read_until_idle hd tl]. rewrite Hne. cbn [negb app length Nat.eqb].
  rewrite Hlast, Z.eqb_refl. reflexivity.
Qed.

(** C7, as the code has it: the reassembly only looks for the next byte
    of value 0x0F.  When one read cycle delivers two packets back to back,
    each of at least 8 bytes, with the start byte first and the value 0x0F
    nowhere but in its last byte, [_read_packet] returns the list of exactly
    these two packets, in the order of arrival, each from its start byte to
    its stop byte. *)
Theorem read_packet_two_packets (fuel : nat) (first second : list Z) :
  complete_packet first = true -> complete_packet second = true -> (2 <= fuel)%nat ->
  _read_packet fuel [first ++ second] = Some (Ok (Some [first; second]), []).
Proof.
  intros H1 H2 Hfuel. unfold _read_packet.
  rewrite read_until_idle_single; [|exact Hfuel|].
  2: { rewrite last_app, (complete_packet_last _ H2). reflexivity. }
  destruct (complete_packet_inv _ H1) as (Hlen1 & [rest1 Hrest1] & _).
  unfold reassemble.
  replace (8 <? length (first ++ second))%nat with true
    by (symmetry; apply Nat.ltb_lt; rewrite length_app;
        destruct (complete_packet_inv _ H2) as (Hlen2 & _); lia).
  assert (Hstart : index START_BYTE (first ++ second) = Ok 0%nat)
    by (rewrite Hrest1; reflexivity).
  rewrite Hstart. cbn [bind]. rewrite drop_0.
  rewrite (split_packets_complete _ _ _ H1).
  rewrite <- (app_nil_r second) at 1.
  rewrite (split_packets_complete _ _ _ H2).
  rewrite split_packets_equation_1. reflexivity.
Qed.

Lemma read_packet_two_packets_witness :
  _read_packet 2 [[0xF0; 0x81; 0x76; 0x81; 0x57; 3; 4; 0x0F]
                  ++ [0xF0; 0x81; 0xC2; 0x81; 0x56; 3; 2; 0; 0x0F]] =
  Some (Ok (Some [[0xF0; 0x81; 0x76; 0x81; 0x57; 3; 4; 0x0F];
                  [0xF0; 0x81; 0xC2; 0x81; 0x56; 3; 2; 0; 0x0F]]), []).
Proof.
  apply (read_packet_two_packets 2); [reflexivity | reflexivity | lia].
Defined.

(** C7, counterexample: two packets built by the encoder, the InitAck of
    packet number 61 and a watchdog packet, arrive back to back in one read
    cycle.  The checksum of the first is 0x5A, sent as 0x0F, and
    [_read_packet] returns three pieces, not the two packets. *)
Lemma read_packet_two_encoded_packets_three_pieces :
  let first := [0xF0; 0x81; 0x0F; 0x81; 0x56; 61; 2; 0; 0x0F] in
  let second := [0xF0; 0x81; 0x76; 0x81; 0x57; 3; 4; 0x0F] in
  _init_ack Type_example 61 = Ok first /\
  _packet_construction Type_example 3 "Watchdog" None = Ok second /\
  _read_packet 2 [first ++ second] =
  Some (Ok (Some [[0xF0; 0x81; 0x0F]; [0x81; 0x56; 61; 2; 0; 0x0F]; second]), []) /\
  _read_packet 2 [first ++ second] <> Some (Ok (Some [first; second]), []).
Proof.
  cbv zeta. split; [reflexivity|]. split; [reflexivity|]. split; [reflexivity|].
  discriminate.
Qed.

(** *** Buffers that end with the stop byte *)

Lemma last_drop_lt (l : list Z) (k : nat) : (k < length l)%nat -> last (drop k l) = last l.
Proof.
  intros Hk. rewrite !last_lookup, lookup_drop, length_drop. f_equal. lia.
Qed.

Lemma last_elem (l : list Z) (x : Z) : last l = Some x -> In x l.
Proof.
  intros H. apply last_Some in H as [l' ->]. apply in_or_app. right. left. reflexivity.
Qed.

(** The inner loop ends without an exception on a buffer that is empty or
    ends with the stop byte. *)
Lemma split_packets_total (n : nat) :
  forall (packet_tmp : list Z) (packet_list : list (list Z)),
  (length packet_tmp <= n)%nat ->
  packet_tmp = [] \/ last packet_tmp = Some STOP_BYTE ->
  exists packets, split_packets packet_tmp packet_list = Ok packets.
Proof.
  induction n as [|n IH]; intros packet_tmp packet_list Hlen Hend.
  - destruct packet_tmp; [|cbn in Hlen; lia].
    rewrite split_packets_equation_1. eexists. reflexivity.
  - destruct Hend as [->|Hlast].
    + rewrite split_packets_equation_1. eexists. reflexivity.
    + destruct (index_present _ _ (last_elem _ _ Hlast)) as [i Hi].
      pose proof (index_lt _ _ _ Hi) as Hlt.
      rewrite (split_packets_step _ _ i Hi). apply IH.
      * rewrite length_drop. lia.
      * destruct (Nat.eq_dec (i + 1)%nat (length packet_tmp)) as [He|Hne].
        -- left. apply drop_ge. lia.
        -- right. rewrite last_drop_lt by lia. exact Hlast.
Qed.

(** With more than 8 bytes and a start byte somewhere, a buffer that ends
    with the stop byte is cut into a list of packets. *)
Lemma reassemble_with_start_byte (packet : list Z) :
  (8 < length packet)%nat -> In START_BYTE packet -> last packet = Some STOP_BYTE ->
  exists packets, reassemble packet = Ok (Some packets).
Proof.
  intros Hlen Hin Hlast. unfold reassemble.
  replace (8 <? length packet)%nat with true by (symmetry; apply Nat.ltb_lt; exact Hlen).
  destruct (index_present _ _ Hin) as [i Hi]. rewrite Hi. cbn [bind].
  pose proof (index_lt _ _ _ Hi) as Hlt.
  destruct (split_packets_total (length packet) (drop i packet) []) as [packets Hp].
  - rewrite length_drop. lia.
  - right. rewrite last_drop_lt by exact Hlt. exact Hlast.
  - rewrite Hp. eexists. reflexivity.
Qed.

(** Without a start byte, [packet.index(START_BYTE)] raises. *)
Lemma reassemble_without_start_byte (packet : list Z) :
  (8 < length packet)%nat -> ~ In START_BYTE packet ->
  reassemble packet = Raise ValueError.
Proof.
  intros Hlen Hn. unfold reassemble.
  replace (8 <? length packet)%nat with true by (symmetry; apply Nat.ltb_lt; exact Hlen).
  rewrite (index_absent _ _ Hn). reflexivity.
Qed.

(** With 8 bytes or fewer the function returns Python's [None]. *)
Lemma reassemble_short (packet : list Z) :
  (length packet <= 8)%nat -> reassemble packet = Ok None.
Proof.
  intros Hlen. unfold reassemble.
  replace (8 <? length packet)%nat with false by (symmetry; apply Nat.ltb_ge; exact Hlen).
  reflexivity.
Qed.

(** C8, at the failing input: the 9 bytes that remain of a 10-byte packet
    whose start byte is missing end with the stop byte, and the reassembly
    step raises [ValueError] instead of returning a list; the read cycle
    that delivers them ends the same way. *)
Theorem reassemble_raises_without_start_byte :
  let packet := [0x81; 0x76; 0x81; 0x57; 3; 4; 0; 0; 0x0F] in
  last packet = Some STOP_BYTE /\
  ~ In START_BYTE packet /\
  reassemble packet = Raise ValueError /\
  _read_packet 2 [packet] = Some (Raise ValueError, []).
Proof.
  cbv zeta. split; [reflexivity|]. split.
  - cbn [In]. unfold START_BYTE. intuition discriminate.
  - split; reflexivity.
Qed.

(** ** Telemetry decoders *)

(** What the code reads when the byte at index 8 is the stuffing byte:
    the XOR is applied to the whole sum. *)
Lemma decode_actual_values_escaped_angle (packet : list Z) (p9 : Z) (v : ActualValues) :
  getitem packet 8 = Ok 129 -> getitem packet 9 = Ok p9 ->
  decode_actual_values packet = Ok v ->
  angle v = Z.lxor (255 * signed_int (slice packet 7 8) + p9) 0x55.
Proof.
  intros H8 H9. unfold decode_actual_values. rewrite H8. cbn [bind Z.eqb Pos.eqb].
  rewrite H9. cbn [bind fst snd].
  destruct (getitem packet (10 + 1)) as [ps|e]; cbn [bind]; [|discriminate].
  destruct (ps =? 129); cbn [bind fst snd];
    (match goal with |- context [getitem packet ?i] => destruct (getitem packet i) end);
    cbn [bind]; try discriminate; intros [= <-]; reflexivity.
Qed.

(** When the byte at index 8 is the stuffing byte and the one at index 11
    is not, the speed is read from index 10. *)
Lemma decode_actual_values_escaped_speed (packet : list Z) (p11 : Z) (v : ActualValues) :
  getitem packet 8 = Ok 129 -> getitem packet 11 = Ok p11 -> p11 <> 129 ->
  decode_actual_values packet = Ok v ->
  speed v = signed_int (slice packet 10 11).
Proof.
  intros H8 H11 Hne. unfold decode_actual_values. rewrite H8. cbn [bind Z.eqb Pos.eqb].
  destruct (getitem packet 9) as [p9|e]; cbn [bind fst snd]; [|discriminate].
  change (10 + 1)%nat with 11%nat. rewrite H11. cbn [bind].
  replace (p11 =? 129) with false by (symmetry; apply Z.eqb_neq; exact Hne).
  cbn [bind fst snd].
  destruct (getitem packet (12 + 1)) as [pt|e]; cbn [bind]; [|discriminate].
  intros [= <-]. reflexivity.
Qed.

(** C1, at the failing input: the high byte of the angle is 1, index 8
    holds the stuffing byte and index 9 the stuffed low byte 0x00 (0x55 on
    the device side), the speed byte 5 follows at index 11.  255 times the
    signed high byte plus the unstuffed low byte is 340 and the shifted
    speed byte is 5; the decoder stores angle 170 and speed 7. *)
Theorem actual_values_escaped_angle_failing_input :
  let packet := [0xF0; 0x81; 0; 0x81; 0; 0; 60; 1; 0x81; 0; 7; 5; 9; 11; 0x0F] in
  getitem packet 8 = Ok 0x81 /\
  255 * signed_int (slice packet 7 8) + Z.lxor 0 0x55 = 340 /\
  signed_int (slice packet 11 12) = 5 /\
  decode_actual_values packet = Ok (mkActualValues 170 7 9) /\
  (exists s, _actual_values_ack Rehastim_init packet = Ok s /\
             motomed_values s = Some [mkActualValues 170 7 9]).
Proof.
  cbv zeta. repeat split. eexists. split; reflexivity.
Qed.

(** ** Ring buffers *)

Lemma latest_nonempty {A : Type} (max : nat) (inserted : list A) :
  inserted <> [] -> latest max inserted = Some (drop (length inserted - max) inserted).
Proof. destruct inserted; [congruence | reflexivity]. Qed.

Lemma append_column_latest {A : Type} (max : nat) (inserted : list A) (column : A) :
  (1 <= max)%nat ->
  append_column max (latest max inserted) column = latest max (inserted ++ [column]).
Proof.
  intros Hmax.
  rewrite (latest_nonempty max (inserted ++ [column])) by (destruct inserted; discriminate).
  rewrite length_app. cbn [length].
  destruct (decide (inserted = [])) as [->|Hne].
  - cbn. replace (1 - max)%nat with 0%nat by lia. reflexivity.
  - rewrite (latest_nonempty max inserted Hne). unfold append_column.
    rewrite length_drop.
    destruct (Nat.ltb_spec (length inserted - (length inserted - max)) max) as [Hlt|Hge].
    + f_equal. replace (length inserted - max)%nat with 0%nat by lia.
      replace (length inserted + 1 - max)%nat with 0%nat by lia. reflexivity.
    + f_equal. rewrite drop_drop, drop_app_le by lia.
      f_equal. f_equal. lia.
Qed.

Lemma latest_length {A : Type} (max : nat) (inserted held : list A) :
  latest max inserted = Some held -> (length held <= max)%nat.
Proof.
  destruct inserted as [|a inserted]; [discriminate|].
  unfold latest. intros [= <-]. rewrite length_drop. cbn [length]. lia.
Qed.

Lemma receive_all_actual_values (packets : list (list Z)) (columns : list ActualValues) :
  Forall2 (fun packet column => decode_actual_values packet = Ok column) packets columns ->
  forall (s : Rehastim) (inserted : list ActualValues),
  motomed_values s = latest max_motomed_values inserted ->
  exists s', receive_all _actual_values_ack s packets = Ok s' /\
             motomed_values s' = latest max_motomed_values (inserted ++ columns).
Proof.
  induction 1 as [|packet column packets columns Hd _ IH]; intros s inserted Hs.
  - exists s. rewrite app_nil_r. split; [reflexivity | exact Hs].
  - cbn [receive_all]. unfold _actual_values_ack at 1. rewrite Hd. cbn [bind].
    rewrite Hs, append_column_latest by (unfold max_motomed_values; lia).
    rewrite (cons_middle column inserted columns), app_assoc.
    apply IH. reflexivity.
Qed.

Lemma receive_all_phase_result (packets : list (list Z)) (columns : list PhaseResult) :
  Forall2 (fun packet column => decode_phase_result packet = Ok column) packets columns ->
  forall (s : Rehastim) (inserted : list PhaseResult),
  last_phase_result s = latest max_phase_result inserted ->
  exists s', receive_all _phase_result_ack s packets = Ok s' /\
             last_phase_result s' = latest max_phase_result (inserted ++ columns).
Proof.
  induction 1 as [|packet column packets columns Hd _ IH]; intros s inserted Hs.
  - exists s. rewrite app_nil_r. split; [reflexivity | exact Hs].
  - cbn [receive_all]. unfold _phase_result_ack at 1. rewrite Hd. cbn [bind].
    rewrite Hs, append_column_latest by (unfold max_phase_result; lia).
    rewrite (cons_middle column inserted columns), app_assoc.
    apply IH. reflexivity.
Qed.

(** C9: after any sequence of Actual-Values packets has been decoded and
    inserted, [motomed_values] holds at most 100 samples, and once more
    than 100 went in exactly the last 100 in insertion order; after any
    sequence of Phase-Result packets, [last_phase_result] holds the sample
    of the last packet alone. *)
Theorem ring_buffers_hold_latest
    (actual_packets phase_packets : list (list Z))
    (actual : list ActualValues) (phase : list PhaseResult) :
  Forall2 (fun packet column => decode_actual_values packet = Ok column)
          actual_packets actual ->
  Forall2 (fun packet column => decode_phase_result packet = Ok column)
          phase_packets phase ->
  exists s1 s2,
    receive_all _actual_values_ack Rehastim_init actual_packets = Ok s1 /\
    receive_all _phase_result_ack Rehastim_init phase_packets = Ok s2 /\
    (forall held, motomed_values s1 = Some held -> (length held <= 100)%nat) /\
    ((length actual <= 100)%nat -> actual <> [] -> motomed_values s1 = Some actual) /\
    ((100 < length actual)%nat ->
     motomed_values s1 = Some (drop (length actual - 100) actual)) /\
    (forall earlier column,
       phase = earlier ++ [column] -> last_phase_result s2 = Some [column]).
Proof.
  intros Ha Hp.
  destruct (receive_all_actual_values _ _ Ha Rehastim_init [] eq_refl) as (s1 & Hr1 & Hm).
  destruct (receive_all_phase_result _ _ Hp Rehastim_init [] eq_refl) as (s2 & Hr2 & Hl).
  cbn [app] in Hm, Hl. exists s1, s2.
  split; [exact Hr1|]. split; [exact Hr2|]. split; [|split; [|split]].
  - intros held Hheld. rewrite Hm in Hheld. exact (latest_length _ _ _ Hheld).
  - intros Hlen Hne. rewrite Hm. destruct actual as [|a actual]; [congruence|].
    unfold latest, max_motomed_values.
    replace (length (a :: actual) - 100)%nat with 0%nat by lia. reflexivity.
  - intros Hlen. rewrite Hm. destruct actual as [|a actual]; [cbn in Hlen; lia|].
    reflexivity.
  - intros earlier column ->. rewrite Hl. unfold latest, max_phase_result.
    destruct earlier as [|e earlier]; [reflexivity|].
    cbn [app]. f_equal. change (e :: earlier ++ [column]) with ((e :: earlier) ++ [column]).
    rewrite length_app. cbn [length].
    replace (S (length earlier) + 1 - 1)%nat with (length (e :: earlier))
      by (cbn [length]; lia).
    apply drop_app_length.
Qed.

Lemma ring_buffers_hold_latest_witness :
  let p1 := [0xF0; 0x81; 0; 0x81; 0; 0; 60; 1; 2; 0; 7; 0; 9; 0x0F] in
  let p2 := [0xF0; 0x81; 0; 0x81; 0; 1; 60; 0; 4; 0; 255; 0; 3; 0x0F] in
  let q1 := [0xF0; 0x81; 0; 0x81; 0; 2; 61; 0; 1; 2; 3; 4; 5; 6; 7; 8; 9; 10; 11; 12; 13;
             14; 15; 0x0F] in
  exists s1 s2,
    receive_all _actual_values_ack Rehastim_init [p1; p2] = Ok s1 /\
    receive_all _phase_result_ack Rehastim_init [q1] = Ok s2 /\
    (forall held, motomed_values s1 = Some held -> (length held <= 100)%nat) /\
    ((length [mkActualValues 257 7 9; mkActualValues 4 (-1) 3] <= 100)%nat ->
     [mkActualValues 257 7 9; mkActualValues 4 (-1) 3] <> [] ->
     motomed_values s1 = Some [mkActualValues 257 7 9; mkActualValues 4 (-1) 3]) /\
    ((100 < length [mkActualValues 257 7 9; mkActualValues 4 (-1) 3])%nat ->
     motomed_values s1 =
     Some (drop (length [mkActualValues 257 7 9; mkActualValues 4 (-1) 3] - 100)
                [mkActualValues 257 7 9; mkActualValues 4 (-1) 3])) /\
    (forall earlier column,
       [mkPhaseResult (Some 257) None (Some 5) (Some 6) None None None (Some 13)
                      (Some 14) (Some 15)] = earlier ++ [column] ->
       last_phase_result s2 = Some [column]).
Proof.
  intros p1 p2 q1.
  apply (ring_buffers_hold_latest [p1; p2] [q1]).
  - constructor; [reflexivity|]. constructor; [reflexivity|]. constructor.
  - constructor; [reflexivity|]. constructor.
Defined.

(** 105 samples with angles 1..105 go in; samples 6..105 are held. *)
Example motomed_values_after_105 :
  let packet_of (k : nat) :=
    [0xF0; 0x81; 0; 0x81; 0; 0; 60; 0; Z.of_nat k; 0; 7; 0; 9; 0x0F] in
  match receive_all _actual_values_ack Rehastim_init (map packet_of (seq 1 105)) with
  | Ok s => motomed_values s
            = Some (map (fun k => mkActualValues (Z.of_nat k) 7 9) (seq 6 100))
  | Raise _ => False
  end.
Proof. vm_compute. reflexivity. Qed.

(** ** Link state *)

Lemma Qgt_bool_iff (a b : Q) : Qgt_bool a b = true <-> (b < a)%Q.
Proof.
  unfold Qgt_bool. rewrite negb_true_iff. split.
  - intros H. apply Qnot_le_lt. intros Hle. apply Qle_bool_iff in Hle. congruence.
  - intros H. destruct (Qle_bool a b) eqn:E; [|reflexivity].
    apply Qle_bool_iff in E. exfalso. exact (Qlt_not_le _ _ H E).
Qed.

Lemma Qgt_bool_false_iff (a b : Q) : Qgt_bool a b = false <-> (a <= b)%Q.
Proof.
  unfold Qgt_bool. rewrite negb_false_iff. apply Qle_bool_iff.
Qed.

(** Rounding keeps the sign: the float nearest to a number that is not
    positive is not positive. *)
Lemma pow2_pos (e : Z) : (0 < pow2 e)%Q.
Proof. apply Qpower_0_lt. reflexivity. Qed.

Lemma round_half_even_nonneg (x : Q) : (0 <= x)%Q -> 0 <= round_half_even x.
Proof.
  intros Hx. unfold round_half_even.
  assert (Hf : 0 <= Qfloor x).
  { change 0 with (Qfloor 0). apply Qfloor_resp_le. exact Hx. }
  destruct (x - inject_Z (Qfloor x) ?= 1 # 2)%Q; [destruct (Z.even (Qfloor x))| |]; lia.
Qed.

Lemma binary64_pos_nonneg (x : Q) : (0 <= x)%Q -> (0 <= binary64_pos x)%Q.
Proof.
  intros Hx. unfold binary64_pos.
  set (q := Z.max (Qfloor_log2 x - 52) (-1074)).
  destruct (Qle_bool (pow2 1024) (inject_Z (round_half_even (x / pow2 q)) * pow2 q)).
  - apply Qlt_le_weak, pow2_pos.
  - apply Qmult_le_0_compat; [|apply Qlt_le_weak, pow2_pos].
    change 0%Q with (inject_Z 0). rewrite <- Zle_Qle.
    apply round_half_even_nonneg. apply Qmult_le_0_compat; [exact Hx|].
    apply Qinv_le_0_compat, Qlt_le_weak, pow2_pos.
Qed.

Lemma binary64_nonpos (x : Q) : (x <= 0)%Q -> (binary64 x <= 0)%Q.
Proof.
  intros Hx. unfold binary64. destruct (x ?= 0)%Q eqn:E.
  - apply Qle_refl.
  - assert (H0 : (0 <= - x)%Q) by lra.
    pose proof (binary64_pos_nonneg (- x) H0). lra.
  - apply Qgt_alt in E. lra.
Qed.

Lemma binary64_1_2_pos : (0 <= binary64 1.2)%Q.
Proof. apply Qle_bool_iff. vm_compute. reflexivity. Qed.

(** At the two points where rounding decides: 0.51 - 0.01 on floats is
    exactly 0.5, and 1.3 - 0.1 is the float 1.2. *)
Example binary64_sub_051_001 :
  (binary64 ((2296835809958953 # 4503599627370496)
             - (5764607523034235 # 576460752303423488)) == 0.5)%Q.
Proof. vm_compute. reflexivity. Qed.

Example binary64_sub_13_01 :
  (binary64 ((5854679515581645 # 4503599627370496)
             - (3602879701896397 # 36028797018963968)) == binary64 1.2)%Q.
Proof. vm_compute. reflexivity. Qed.




(** C2, at the failing input: the flag is set, the last command was sent
    at time 100 and the clock reads 110, so 10 seconds have elapsed, which
    is not below 1.2; [is_connected] returns [True] and leaves the flag
    set. *)
Theorem is_connected_after_ten_seconds :
  let w := mkWorld (mkRehastim 100 7 true [] None None) 110 [] in
  reha_connected (self w) = true /\
  ~ (clock w - time_last_cmd (self w) < 1.2)%Q /\
  is_connected w = (true, w).
Proof.
  cbv zeta. split; [reflexivity|]. split; [|vm_compute; reflexivity].
  cbn. intros H. revert H. apply Qle_not_lt. apply Qle_bool_iff. reflexivity.
Qed.

(** ** Watchdog *)

Section WatchdogFacts.

Variable Type_value : string -> option Z.
Variable code : Z.
Hypothesis Watchdog_code : Type_value "Watchdog"%string = Some code.
Hypothesis Watchdog_code_byte : is_byte code.

(** The keep-alive packet: no payload, 8 bytes. *)
Lemma packet_watchdog_ok (s : Rehastim) :
  is_byte (packet_count s) ->
  _packet_watchdog Type_value s =
  Ok [0xF0; 0x81;
      Z.lxor (Crc8_calc [stuffed_header_byte (packet_count s); stuffed_header_byte code]) 0x55;
      0x81; 0x57;
      stuffed_header_byte (packet_count s); stuffed_header_byte code; 0x0F].
Proof.
  intros Hc. unfold _packet_watchdog.
  rewrite (packet_construction_ok Type_value _ code _ None Watchdog_code Hc
             Watchdog_code_byte (Forall_nil_2 _)) by (cbn; lia).
  reflexivity.
Qed.

(** Sending the keep-alive: one packet more on the port, the time of the
    last command becomes the current time, the counter advances. *)
Lemma send_watchdog_ok (w : World) (frame : list Z) :
  _packet_watchdog Type_value (self w) = Ok frame ->
  _send_generic_packet Type_value "Watchdog" [] (packet_count (self w)) w =
  Ok (mkWorld
        (mkRehastim (clock w) ((packet_count (self w) + 1) mod 256)
                    (reha_connected (self w)) frame
                    (motomed_values (self w)) (last_phase_result (self w)))
        (clock w) (port_written w ++ [frame])).
Proof.
  intros Hf. unfold _send_generic_packet.
  change (String.eqb "Watchdog" "InitAck") with false.
  change (String.eqb "Watchdog" "Watchdog") with true.
  cbv iota. rewrite Hf. reflexivity.
Qed.

Lemma watchdog_body_due (w : World) (frame : list Z) :
  _packet_watchdog Type_value (self w) = Ok frame ->
  (0.5 < binary64 (clock w - time_last_cmd (self w)))%Q ->
  watchdog_body Type_value w =
  Ok (mkWorld
        (mkRehastim (clock w) ((packet_count (self w) + 1) mod 256)
                    (reha_connected (self w)) frame
                    (motomed_values (self w)) (last_phase_result (self w)))
        (clock w + 0.5)%Q (port_written w ++ [frame])).
Proof.
  intros Hf Hdue. unfold watchdog_body.
  rewrite (proj2 (Qgt_bool_iff _ _) Hdue), (send_watchdog_ok _ _ Hf). reflexivity.
Qed.

Lemma watchdog_body_not_due (w : World) :
  ~ (0.5 < binary64 (clock w - time_last_cmd (self w)))%Q ->
  watchdog_body Type_value w = Ok w.
Proof.
  intros Hn. unfold watchdog_body.
  destruct (Qgt_bool (binary64 (clock w - time_last_cmd (self w))) 0.5) eqn:E;
    [|reflexivity].
  apply Qgt_bool_iff in E. contradiction.
Qed.

End WatchdogFacts.

(** The loop after one iteration. *)
Lemma watchdog_loop_step (Type_value : string -> option Z) (w : World)
    (state : loop_state) (w' : World) :
  watchdog_iteration Type_value w = Ok (state, w') ->
  forall (other : World -> World) (others : list (World -> World)) (w0 : World),
  other w0 = w ->
  _watchdog Type_value (other :: others) w0 =
  match state with
  | Stopped => Ok (Stopped, w')
  | Running => _watchdog Type_value others w'
  end.
Proof.
  intros Hit other others w0 <-. cbn [_watchdog]. rewrite Hit.
  cbn [bind fst snd]. destruct state; reflexivity.
Qed.




(** The three cases on concrete states: due, not due, flag clear; and
    the two times where only the rounding of the subtraction decides. *)
Example watchdog_iteration_due :
  watchdog_iteration Type_example (mkWorld (mkRehastim 100 3 true [] None None) (1006 # 10) [])
  = Ok (Running,
        mkWorld (mkRehastim (1006 # 10) 4 true [0xF0; 0x81; 0x76; 0x81; 0x57; 3; 4; 0x0F]
                            None None)
                ((1006 # 10) + 0.5)%Q [[0xF0; 0x81; 0x76; 0x81; 0x57; 3; 4; 0x0F]]).
Proof. vm_compute. reflexivity. Qed.

Example watchdog_iteration_not_due :
  let w := mkWorld (mkRehastim 100 3 true [] None None) (1004 # 10) [] in
  watchdog_iteration Type_example w = Ok (Running, w).
Proof. vm_compute. reflexivity. Qed.

Example watchdog_iteration_flag_clear :
  let w := mkWorld (mkRehastim 100 3 false [] None None) 200 [] in
  watchdog_iteration Type_example w = Ok (Stopped, w).
Proof. vm_compute. reflexivity. Qed.

Example watchdog_iteration_rounds_to_half :
  let w := mkWorld (mkRehastim (5764607523034235 # 576460752303423488) 3 true [] None None)
                   (2296835809958953 # 4503599627370496) [] in
  (0.5 < clock w - time_last_cmd (self w))%Q /\
  watchdog_iteration Type_example w = Ok (Running, w).
Proof. split; [apply Qgt_bool_iff | ]; vm_compute; reflexivity. Qed.

Example is_connected_rounds_to_1_2 :
  let w := mkWorld (mkRehastim (5854679515581645 # 4503599627370496) 3 true [] None None)
                   (3602879701896397 # 36028797018963968) [] in
  (1.2 < time_last_cmd (self w) - clock w)%Q /\
  is_connected w = (true, w).
Proof. split; [apply Qgt_bool_iff | ]; vm_compute; reflexivity. Qed.

(** The clock advances by 100 ms before each of six iterations of an idle
    connected link: exactly one keep-alive is written, in the sixth. *)
Example watchdog_600ms_idle :
  let w := mkWorld (mkRehastim 0 3 true [] None None) 0 [] in
  match _watchdog Type_example (repeat (sleep 0.1) 6) w with
  | Ok (state, w') =>
      state = Running /\ port_written w' = [[0xF0; 0x81; 0x76; 0x81; 0x57; 3; 4; 0x0F]]
  | Raise _ => False
  end.
Proof. vm_compute. split; reflexivity. Qed.

Example watchdog_500ms_idle :
  let w := mkWorld (mkRehastim 0 3 true [] None None) 0 [] in
  match _watchdog Type_example (repeat (sleep 0.1) 5) w with
  | Ok (state, w') => state = Running /\ port_written w' = []
  | Raise _ => False
  end.
Proof. vm_compute. split; reflexivity. Qed.

(** Once [disconnect] has cleared the flag the loop stops and writes
    nothing, however much time passes afterwards. *)
Example watchdog_after_disconnect :
  let w := mkWorld (mkRehastim 0 3 true [] None None) 0 [] in
  match _watchdog Type_example
          [sleep 0.3; set_reha_connected false; sleep 5; sleep 5] w with
  | Ok (state, w') => state = Stopped /\ port_written w' = []
  | Raise _ => False
  end.
Proof. vm_compute. split; reflexivity. Qed.

(** * Further properties of the codec *)

Lemma stuffed_byte_not_reserved (b : Z) :
  in_STUFFED_BYTES b = true -> in_STUFFED_BYTES (Z.lxor b 0x55) = false.
Proof.
  intros H. apply in_STUFFED_BYTES_spec in H.
  destruct H as [->|[->|[->|[->| ->]]]]; reflexivity.
Qed.

Lemma stuffed_header_byte_not_reserved (b : Z) :
  in_STUFFED_BYTES (stuffed_header_byte b) = false.
Proof.
  unfold stuffed_header_byte. destruct (in_STUFFED_BYTES b) eqn:E.
  - apply stuffed_byte_not_reserved, E.
  - exact E.
Qed.

Lemma stuffed_data_byte_marker_only (b : Z) :
  Forall (fun x => in_STUFFED_BYTES x = true -> x = STUFFING_BYTE) (stuffed_data_byte b).
Proof.
  unfold stuffed_data_byte. destruct (in_STUFFED_BYTES b) eqn:E; all_bytes.
  - reflexivity.
  - rewrite (stuffed_byte_not_reserved _ E). discriminate.
  - rewrite E. discriminate.
Qed.

Lemma stuffed_data_marker_only (packet : list Z) :
  Forall (fun x => in_STUFFED_BYTES x = true -> x = STUFFING_BYTE)
         (concat (map stuffed_data_byte packet)).
Proof.
  induction packet as [|b packet IH]; cbn [map concat].
  - apply Forall_nil_2.
  - apply Forall_app_2; [apply stuffed_data_byte_marker_only | exact IH].
Qed.

(** X1: whatever the input, the stuffed payload holds no start byte, no
    stop byte, no 0x55 and no 0x0A, and its only reserved value is the
    stuffing byte 0x81; the stuffed header holds no reserved value at
    all. *)
Theorem stuff_packet_byte_output_reserved (packet : list Z) :
  Forall (fun x => in_STUFFED_BYTES x = true -> x = STUFFING_BYTE)
         (_stuff_packet_byte packet true) /\
  ~ In START_BYTE (_stuff_packet_byte packet true) /\
  ~ In STOP_BYTE (_stuff_packet_byte packet true) /\
  Forall (fun x => in_STUFFED_BYTES x = false) (_stuff_packet_byte packet false).
Proof.
  assert (Hmark : Forall (fun x => in_STUFFED_BYTES x = true -> x = STUFFING_BYTE)
                         (_stuff_packet_byte packet true)).
  { rewrite stuff_packet_byte_data. apply stuffed_data_marker_only. }
  split; [exact Hmark|]. split; [|split].
  - intros Hin. rewrite Forall_forall in Hmark. apply list_elem_of_In in Hin.
    specialize (Hmark _ Hin eq_refl). discriminate.
  - intros Hin. rewrite Forall_forall in Hmark. apply list_elem_of_In in Hin.
    specialize (Hmark _ Hin eq_refl). discriminate.
  - rewrite stuff_packet_byte_header. apply Forall_map.
    apply Forall_forall. intros x _. apply stuffed_header_byte_not_reserved.
Qed.

Lemma lxor_key_inj (a b : Z) : Z.lxor a 0x55 = Z.lxor b 0x55 -> a = b.
Proof.
  intros H. rewrite <- (Z.lxor_0_r a), <- (Z.lxor_0_r b), <- (Z.lxor_nilpotent 0x55).
  rewrite <- !Z.lxor_assoc, H. reflexivity.
Qed.

Lemma stuffed_data_inj (packet1 packet2 : list Z) :
  concat (map stuffed_data_byte packet1) = concat (map stuffed_data_byte packet2) ->
  packet1 = packet2.
Proof.
  revert packet2. induction packet1 as [|a packet1 IH]; intros [|b packet2];
    cbn [map concat].
  - reflexivity.
  - unfold stuffed_data_byte at 1. destruct (in_STUFFED_BYTES b); discriminate.
  - unfold stuffed_data_byte at 1. destruct (in_STUFFED_BYTES a); discriminate.
  - unfold stuffed_data_byte at 1 3.
    destruct (in_STUFFED_BYTES a) eqn:Ea, (in_STUFFED_BYTES b) eqn:Eb; cbn [app].
    + intros [= Hab Hrest]. apply lxor_key_inj in Hab. subst b.
      f_equal. apply IH, Hrest.
    + intros [= Hb _]. subst b. discriminate.
    + intros [= Ha _]. subst a. discriminate.
    + intros [= Hab Hrest]. subst b. f_equal. apply IH, Hrest.
Qed.

(** X2: payload stuffing loses nothing: two payloads with the same
    stuffed form are the same payload. *)
Theorem stuff_packet_byte_data_injective (packet1 packet2 : list Z) :
  _stuff_packet_byte packet1 true = _stuff_packet_byte packet2 true ->
  packet1 = packet2.
Proof.
  rewrite !stuff_packet_byte_data. apply stuffed_data_inj.
Qed.

Lemma stuff_packet_byte_data_injective_witness :
  [0xF0; 7] = [0xF0; 7].
Proof.
  apply (stuff_packet_byte_data_injective [0xF0; 7] [0xF0; 7]). reflexivity.
Defined.

Lemma stuffed_header_byte_collision (b : Z) :
  in_STUFFED_BYTES b = true -> stuffed_header_byte (Z.lxor b 0x55) = stuffed_header_byte b.
Proof.
  intros H. unfold stuffed_header_byte.
  rewrite H, (stuffed_byte_not_reserved _ H). reflexivity.
Qed.

(** X3: header stuffing inserts no marker, so a reserved packet number
    and that number XOR 0x55 give the same packet: 15 and 90, 10 and 95, 85
    and 0, 129 and 212, 240 and 165 cannot be told apart on the wire. *)
Theorem packet_construction_header_collision (Type_value : string -> option Z)
    (packet_count : Z) (packet_type : string) (packet_data : option (list Z)) :
  in_STUFFED_BYTES packet_count = true ->
  _packet_construction Type_value (Z.lxor packet_count 0x55) packet_type packet_data =
  _packet_construction Type_value packet_count packet_type packet_data.
Proof.
  intros H. unfold _packet_construction.
  destruct (Type_value packet_type) as [packet_command|]; [|reflexivity].
  cbn [bind]. rewrite !stuff_packet_byte_header. cbn [map].
  rewrite (stuffed_header_byte_collision _ H). reflexivity.
Qed.

Lemma packet_construction_header_collision_witness :
  _packet_construction Type_example (Z.lxor 15 0x55) "Watchdog" None =
  _packet_construction Type_example 15 "Watchdog" None.
Proof.
  apply (packet_construction_header_collision Type_example 15 "Watchdog" None).
  reflexivity.
Defined.

Example packet_count_15_and_90 :
  _packet_construction Type_example 90 "Watchdog" None =
  _packet_construction Type_example 15 "Watchdog" None.
Proof. reflexivity. Qed.

Lemma stuffed_data_length (packet : list Z) :
  length (concat (map stuffed_data_byte packet)) = (length packet + count_stuffed packet)%nat.
Proof.
  unfold count_stuffed. induction packet as [|b packet IH]; [reflexivity|].
  cbn [map concat List.filter]. rewrite length_app, IH. unfold stuffed_data_byte.
  destruct (in_STUFFED_BYTES b); cbn [length]; lia.
Qed.

Lemma count_stuffed_le (packet : list Z) : (count_stuffed packet <= length packet)%nat.
Proof.
  unfold count_stuffed. induction packet as [|b packet IH]; [reflexivity|].
  cbn [List.filter]. destruct (in_STUFFED_BYTES b); cbn [length]; lia.
Qed.

(** X4: the size of a packet on the wire.  For header values and payload
    bytes that fit one byte and a payload of at most 126 bytes the encoder
    succeeds, and the packet has 8 bytes, plus one per payload byte, plus
    one more per payload byte that had to be stuffed. *)
Theorem packet_construction_length (Type_value : string -> option Z)
    (packet_count packet_command : Z) (packet_type : string) (packet_data : list Z) :
  Type_value packet_type = Some packet_command ->
  is_byte packet_count -> is_byte packet_command ->
  Forall is_byte packet_data -> (length packet_data <= 126)%nat ->
  exists packet,
    _packet_construction Type_value packet_count packet_type (Some packet_data) = Ok packet /\
    length packet = (8 + length packet_data + count_stuffed packet_data)%nat /\
    (length packet <= 8 + 2 * length packet_data)%nat.
Proof.
  intros HT Hc Hk Hd Hlen.
  pose proof (count_stuffed_le packet_data) as Hcount.
  assert (Hblock : length (payload_block packet_count packet_command (Some packet_data))
                   = (2 + (length packet_data + count_stuffed packet_data))%nat).
  { unfold payload_block. rewrite length_app, stuffed_data_length. reflexivity. }
  eexists. split.
  - apply (packet_construction_ok Type_value _ _ _ (Some packet_data) HT Hc Hk Hd).
    rewrite Hblock. lia.
  - cbn [app length]. rewrite length_app, Hblock. cbn [length]. lia.
Qed.

Lemma packet_construction_length_witness :
  exists packet,
    _packet_construction Type_example 3 "Watchdog" (Some [0xF0; 7; 0x55]) = Ok packet /\
    length packet = (8 + length [0xF0; 7; 0x55]%Z + count_stuffed [0xF0; 7; 0x55]%Z)%nat /\
    (length packet <= 8 + 2 * length [0xF0; 7; 0x55]%Z)%nat.
Proof.
  apply (packet_construction_length Type_example 3 4 "Watchdog" [0xF0; 7; 0x55]).
  - reflexivity.
  - unfold is_byte. lia.
  - unfold is_byte. lia.
  - all_bytes; unfold is_byte; lia.
  - cbn. lia.
Defined.

(** * Further properties of the reassembly *)

Lemma index_first (x : Z) (pre post : list Z) :
  ~ In x pre -> index x (pre ++ x :: post) = Ok (length pre).
Proof.
  induction pre as [|y pre IH]; intros Hn; cbn [app index length].
  - rewrite Z.eqb_refl. reflexivity.
  - destruct (Z.eqb_spec y x) as [->|Hne]; [exfalso; apply Hn; left; reflexivity|].
    rewrite IH; [reflexivity|]. intros Hin. apply Hn. right. exact Hin.
Qed.

Lemma index_take (x : Z) (l : list Z) (i : nat) :
  index x l = Ok i -> index x (take (S i) l) = Ok i.
Proof.
  revert i. induction l as [|y l IH]; intros i; cbn [index]; [discriminate|].
  destruct (y =? x) eqn:E.
  - intros [= <-]. cbn [take index]. rewrite E. reflexivity.
  - destruct (index x l) as [j|e] eqn:Ej; cbn [bind]; [|discriminate].
    intros [= <-]. cbn [take index]. rewrite E, (IH j eq_refl). reflexivity.
Qed.

Lemma split_packets_complete_list (packets : list (list Z)) :
  Forall (fun packet => complete_packet packet = true) packets ->
  forall packet_list, split_packets (concat packets) packet_list = Ok (packet_list ++ packets).
Proof.
  induction 1 as [|packet packets Hp _ IH]; intros packet_list; cbn [concat].
  - rewrite split_packets_equation_1, app_nil_r. reflexivity.
  - rewrite (split_packets_complete _ _ _ Hp), IH, <- app_assoc. reflexivity.
Qed.

Lemma read_until_idle_burst (chunks : list (list Z)) :
  Forall (fun chunk => chunk <> []) chunks ->
  forall (fuel : nat) (packet : list Z),
  (length chunks < fuel)%nat ->
  last (packet ++ concat chunks) = Some STOP_BYTE ->
  read_until_idle fuel packet chunks = Some (packet ++ concat chunks, []).
Proof.
  induction 1 as [|chunk chunks Hc _ IH]; intros fuel packet Hfuel Hlast.
  - destruct fuel as [|fuel]; [cbn in Hfuel; lia|].
    cbn [concat] in *. rewrite app_nil_r in *.
    cbn [read_until_idle hd tl length Nat.eqb negb]. rewrite Hlast, Z.eqb_refl. reflexivity.
  - destruct fuel as [|fuel]; [cbn in Hfuel; lia|].
    cbn [read_until_idle hd tl concat].
    replace (length chunk =? 0)%nat with false
      by (destruct chunk; [congruence | reflexivity]).
    cbn [negb]. rewrite app_assoc. apply IH.
    + cbn [length] in Hfuel. lia.
    + rewrite <- app_assoc. exact Hlast.
Qed.

(** X5: any number of complete packets that arrive back to back in one
    burst of reads, more than 8 bytes in all, are returned as that list of
    packets, in order, however the burst is cut into reads. *)
Theorem read_packet_complete_packets (fuel : nat) (chunks packets : list (list Z)) :
  Forall (fun chunk => chunk <> []) chunks ->
  Forall (fun packet => complete_packet packet = true) packets ->
  concat chunks = concat packets ->
  (8 < length (concat packets))%nat ->
  (length chunks < fuel)%nat ->
  _read_packet fuel chunks = Some (Ok (Some packets), []).
Proof.
  intros Hchunks Hpackets Heq Hlen Hfuel. unfold _read_packet.
  destruct packets as [|first packets]; [cbn in Hlen; lia|].
  assert (Hlast : last (concat (first :: packets)) = Some STOP_BYTE).
  { clear Heq Hlen. revert first Hpackets.
    induction packets as [|second packets IH]; intros first Hp.
    - cbn [concat]. rewrite app_nil_r. apply complete_packet_last.
      exact (Forall_inv Hp).
    - change (concat (first :: second :: packets))
        with (first ++ concat (second :: packets)).
      rewrite last_app, (IH second (Forall_inv_tail Hp)). reflexivity. }
  rewrite (read_until_idle_burst chunks Hchunks fuel [] Hfuel)
    by (cbn [app]; rewrite Heq; exact Hlast).
  cbn [app]. rewrite Heq. unfold reassemble.
  replace (8 <? length (concat (first :: packets)))%nat with true
    by (symmetry; apply Nat.ltb_lt; exact Hlen).
  destruct (complete_packet_inv _ (Forall_inv Hpackets)) as (_ & [rest Hrest] & _).
  assert (Hstart : index START_BYTE (concat (first :: packets)) = Ok 0%nat)
    by (cbn [concat]; rewrite Hrest; reflexivity).
  rewrite Hstart. cbn [bind]. rewrite drop_0.
  rewrite (split_packets_complete_list _ Hpackets). reflexivity.
Qed.

Lemma read_packet_complete_packets_witness :
  _read_packet 3 [[0xF0; 0x81; 0x76; 0x81; 0x57; 3; 4; 0x0F; 0xF0; 0x81];
                  [0xC2; 0x81; 0x56; 3; 2; 0; 0x0F]] =
  Some (Ok (Some [[0xF0; 0x81; 0x76; 0x81; 0x57; 3; 4; 0x0F];
                  [0xF0; 0x81; 0xC2; 0x81; 0x56; 3; 2; 0; 0x0F]]), []).
Proof.
  apply (read_packet_complete_packets 3).
  - apply Forall_cons_2; [discriminate|]. apply Forall_cons_2; [discriminate|].
    apply Forall_nil_2.
  - apply Forall_cons_2; [reflexivity|]. apply Forall_cons_2; [reflexivity|].
    apply Forall_nil_2.
  - reflexivity.
  - cbn. lia.
  - cbn. lia.
Defined.

Lemma read_until_idle_sound (fuel : nat) :
  forall (packet : list Z) (reads : list (list Z)) (buffer : list Z) (rest : list (list Z)),
  read_until_idle fuel packet reads = Some (buffer, rest) ->
  last buffer = Some STOP_BYTE /\ packet ++ concat reads = buffer ++ concat rest.
Proof.
  induction fuel as [|fuel IH]; intros packet reads buffer rest; [discriminate|].
  cbn [read_until_idle].
  destruct reads as [|chunk reads]; cbn [hd tl].
  - cbn [length Nat.eqb negb].
    destruct (last packet) as [b|] eqn:El.
    + destruct (Z.eqb_spec b STOP_BYTE) as [->|Hne].
      * intros [= <- <-]. split; [exact El | reflexivity].
      * apply IH.
    + apply IH.
  - destruct (length chunk =? 0)%nat eqn:Ec; cbn [negb].
    + assert (chunk = []) as -> by (destruct chunk; [reflexivity | discriminate]).
      cbn [concat app].
      destruct (last packet) as [b|] eqn:El.
      * destruct (Z.eqb_spec b STOP_BYTE) as [->|Hne].
        -- intros [= <- <-]. split; [exact El | reflexivity].
        -- apply IH.
      * apply IH.
    + intros H. apply IH in H as [Hl Hc]. split; [exact Hl|].
      cbn [concat]. rewrite app_assoc. exact Hc.
Qed.

(** X10: when the read loop of [_read_packet] ends, the bytes it hands on
    end with the stop byte, and they are exactly the bytes read so far: put
    before what is still to be read they give back the input stream, so the
    loop drops, adds and reorders nothing. *)
Theorem read_packet_buffer (fuel : nat) (reads rest : list (list Z))
    (r : result (option (list (list Z)))) :
  _read_packet fuel reads = Some (r, rest) ->
  exists buffer,
    r = reassemble buffer /\
    last buffer = Some STOP_BYTE /\
    concat reads = buffer ++ concat rest.
Proof.
  unfold _read_packet.
  destruct (read_until_idle fuel [] reads) as [[buffer rest']|] eqn:E; [|discriminate].
  intros [= <- <-]. exists buffer. split; [reflexivity|].
  exact (read_until_idle_sound _ _ _ _ _ E).
Qed.

Lemma read_packet_buffer_witness :
  exists buffer,
    Ok None = reassemble buffer /\
    last buffer = Some STOP_BYTE /\
    concat [[0xF0; 0x81]; []; [0x76; 0x0F]; []; [1; 2]] = buffer ++ concat [[1; 2]].
Proof.
  apply (read_packet_buffer 5 [[0xF0; 0x81]; []; [0x76; 0x0F]; []; [1; 2]] [[1; 2]]).
  reflexivity.
Defined.

Lemma read_until_idle_waits (chunks : list (list Z)) :
  Forall (fun chunk => chunk <> []) chunks ->
  forall (fuel : nat) (packet : list Z),
  last (packet ++ concat chunks) <> Some STOP_BYTE ->
  read_until_idle fuel packet chunks = None.
Proof.
  induction 1 as [|chunk chunks Hc _ IH]; intros fuel packet Hlast.
  - cbn [concat] in Hlast. rewrite app_nil_r in Hlast.
    induction fuel as [|fuel IHf]; [reflexivity|].
    cbn [read_until_idle hd tl length Nat.eqb negb].
    destruct (last packet) as [b|]; [|exact IHf].
    destruct (Z.eqb_spec b STOP_BYTE) as [->|Hne]; [congruence | exact IHf].
  - destruct fuel as [|fuel]; [reflexivity|].
    cbn [read_until_idle hd tl].
    replace (length chunk =? 0)%nat with false
      by (destruct chunk; [congruence | reflexivity]).
    cbn [negb]. apply IH. cbn [concat] in Hlast. rewrite <- app_assoc. exact Hlast.
Qed.

(** X11: when the bytes of a burst do not end with the stop byte (in
    particular when nothing arrives at all) and the port then stays idle,
    [_read_packet] never returns, whatever the number of reads allowed. *)
Theorem read_packet_waits_for_stop_byte (fuel : nat) (chunks : list (list Z)) :
  Forall (fun chunk => chunk <> []) chunks ->
  last (concat chunks) <> Some STOP_BYTE ->
  _read_packet fuel chunks = None.
Proof.
  intros Hc Hlast. unfold _read_packet.
  rewrite (read_until_idle_waits chunks Hc fuel []); [reflexivity | exact Hlast].
Qed.

Lemma read_packet_waits_for_stop_byte_witness :
  _read_packet 1000 [[0xF0; 0x81; 0x76]; [0x81; 0x57; 3; 4]] = None.
Proof.
  apply (read_packet_waits_for_stop_byte 1000).
  - apply Forall_cons_2; [discriminate|]. apply Forall_cons_2; [discriminate|].
    apply Forall_nil_2.
  - discriminate.
Defined.

Lemma split_packets_sound (n : nat) :
  forall (packet_tmp : list Z) (packet_list out : list (list Z)),
  (length packet_tmp <= n)%nat ->
  split_packets packet_tmp packet_list = Ok out ->
  exists cut,
    out = packet_list ++ cut /\
    concat cut = packet_tmp /\
    Forall (fun packet => index STOP_BYTE packet = Ok (length packet - 1)%nat) cut.
Proof.
  induction n as [|n IH]; intros packet_tmp packet_list out Hlen Hsplit.
  - destruct packet_tmp; [|cbn in Hlen; lia].
    rewrite split_packets_equation_1 in Hsplit. injection Hsplit as <-.
    exists []. rewrite app_nil_r. repeat split. apply Forall_nil_2.
  - destruct packet_tmp as [|b rest].
    + rewrite split_packets_equation_1 in Hsplit. injection Hsplit as <-.
      exists []. rewrite app_nil_r. repeat split. apply Forall_nil_2.
    + destruct (index STOP_BYTE (b :: rest)) as [i|e] eqn:Ei.
      2: { rewrite split_packets_equation_2, Ei in Hsplit. discriminate. }
      pose proof (index_lt _ _ _ Ei) as Hlt.
      rewrite (split_packets_step _ _ i Ei) in Hsplit.
      apply IH in Hsplit as (cut & -> & Hcat & Hall).
      2: { rewrite length_drop. cbn [length] in *. lia. }
      exists (take (i + 1) (b :: rest) :: cut). split; [|split].
      * rewrite <- app_assoc. reflexivity.
      * cbn [concat]. rewrite Hcat. apply take_drop.
      * apply Forall_cons_2; [|exact Hall].
        rewrite length_take_le by lia.
        replace (i + 1)%nat with (S i) by lia.
        rewrite (index_take _ _ _ Ei). f_equal. lia.
Qed.

Lemma reassemble_sound (packet : list Z) (packets : list (list Z)) :
  reassemble packet = Ok (Some packets) ->
  exists first_start_byte,
    index START_BYTE packet = Ok first_start_byte /\
    concat packets = drop first_start_byte packet /\
    packets <> [] /\
    Forall (fun p => index STOP_BYTE p = Ok (length p - 1)%nat) packets.
Proof.
  unfold reassemble. destruct (8 <? length packet)%nat; [|discriminate].
  destruct (index START_BYTE packet) as [i|e] eqn:Ei; cbn [bind]; [|discriminate].
  destruct (split_packets (drop i packet) []) as [out|e] eqn:Es; cbn [bind]; [|discriminate].
  intros [= <-].
  apply (split_packets_sound (length (drop i packet))) in Es as (cut & -> & Hcat & Hall);
    [|lia].
  cbn [app]. exists i. split; [reflexivity|]. split; [exact Hcat|]. split; [|exact Hall].
  intros ->. cbn [concat] in Hcat. pose proof (index_lt _ _ _ Ei) as Hlt.
  assert (Hl : length (drop i packet) = 0%nat) by (rewrite <- Hcat; reflexivity).
  rewrite length_drop in Hl. lia.
Qed.

(** X9: what a successful reassembly returns.  The list is not empty;
    its packets, put end to end, are the buffer from its first start byte
    on (what precedes is dropped, nothing else); and each packet ends with a
    stop byte and holds no other. *)
Theorem reassemble_packets (packet : list Z) (packets : list (list Z)) :
  reassemble packet = Ok (Some packets) ->
  exists first_start_byte,
    index START_BYTE packet = Ok first_start_byte /\
    concat packets = drop first_start_byte packet /\
    packets <> [] /\
    Forall (fun p => index STOP_BYTE p = Ok (length p - 1)%nat) packets.
Proof. exact (reassemble_sound packet packets). Qed.

Lemma reassemble_packets_witness :
  exists first_start_byte,
    index START_BYTE [7; 7; 0xF0; 1; 2; 0x0F; 9; 9; 0xF0; 0x0F] = Ok first_start_byte /\
    concat [[0xF0; 1; 2; 0x0F]; [9; 9; 0xF0; 0x0F]]
    = drop first_start_byte [7; 7; 0xF0; 1; 2; 0x0F; 9; 9; 0xF0; 0x0F] /\
    [[0xF0; 1; 2; 0x0F]; [9; 9; 0xF0; 0x0F]] <> [] /\
    Forall (fun p => index STOP_BYTE p = Ok (length p - 1)%nat)
           [[0xF0; 1; 2; 0x0F]; [9; 9; 0xF0; 0x0F]].
Proof.
  apply (reassemble_packets [7; 7; 0xF0; 1; 2; 0x0F; 9; 9; 0xF0; 0x0F]). reflexivity.
Defined.

(** X12: the three ways [_read_packet] can return.  With the buffer it
    gathered: 8 bytes or fewer give [None]; more than 8 bytes without a
    start byte raise [ValueError]; more than 8 bytes with a start byte give
    a non-empty list of packets.  No other exception leaves the method. *)
Theorem read_packet_outcomes (fuel : nat) (reads rest : list (list Z))
    (r : result (option (list (list Z)))) :
  _read_packet fuel reads = Some (r, rest) ->
  exists buffer,
    concat reads = buffer ++ concat rest /\
    ((length buffer <= 8)%nat /\ r = Ok None \/
     (8 < length buffer)%nat /\ ~ In START_BYTE buffer /\ r = Raise ValueError \/
     (8 < length buffer)%nat /\ In START_BYTE buffer /\
       exists packets, r = Ok (Some packets) /\ packets <> []).
Proof.
  intros H. unfold _read_packet in H.
  destruct (read_until_idle fuel [] reads) as [[buffer rest']|] eqn:E; [|discriminate].
  injection H as <- <-.
  destruct (read_until_idle_sound _ _ _ _ _ E) as [Hlast Hcat]. cbn [app] in Hcat.
  exists buffer. split; [exact Hcat|].
  destruct (Nat.le_gt_cases (length buffer) 8) as [Hle|Hgt].
  - left. split; [exact Hle | apply reassemble_short, Hle].
  - right. destruct (in_dec Z.eq_dec START_BYTE buffer) as [Hin|Hn].
    + right. split; [exact Hgt|]. split; [exact Hin|].
      destruct (reassemble_with_start_byte _ Hgt Hin Hlast) as [packets Hp].
      exists packets. split; [exact Hp|].
      destruct (reassemble_sound _ _ Hp) as (_ & _ & _ & Hne & _). exact Hne.
    + left. split; [exact Hgt|]. split; [exact Hn|].
      apply reassemble_without_start_byte; assumption.
Qed.

Lemma read_packet_outcomes_witness :
  exists buffer,
    concat [[0xF0; 0x81; 0x76; 0x81; 0x57; 3; 4; 0x0F]] = buffer ++ concat [] /\
    ((length buffer <= 8)%nat /\ @Ok (option (list (list Z))) None = Ok None \/
     (8 < length buffer)%nat /\ ~ In START_BYTE buffer /\
       @Ok (option (list (list Z))) None = Raise ValueError \/
     (8 < length buffer)%nat /\ In START_BYTE buffer /\
       exists packets, @Ok (option (list (list Z))) None = Ok (Some packets) /\ packets <> []).
Proof.
  apply (read_packet_outcomes 2 [[0xF0; 0x81; 0x76; 0x81; 0x57; 3; 4; 0x0F]] []).
  reflexivity.
Defined.

(** * The encoder and the reassembly together *)

Lemma lxor_key_ne (a b : Z) : a <> Z.lxor b 0x55 -> Z.lxor a 0x55 <> b.
Proof.
  intros Hne Heq. apply Hne. rewrite <- Heq, Z.lxor_assoc, Z.lxor_nilpotent, Z.lxor_0_r.
  reflexivity.
Qed.

Lemma payload_block_no_stop_byte (packet_count packet_command : Z)
    (packet_data : option (list Z)) :
  ~ In STOP_BYTE (payload_block packet_count packet_command packet_data).
Proof.
  unfold payload_block. intros Hin. apply in_app_or in Hin as [Hin|Hin].
  - cbn [map In] in Hin.
    destruct Hin as [H|[H|[]]];
      match type of H with
      | stuffed_header_byte ?b = _ =>
          pose proof (stuffed_header_byte_not_reserved b) as Hr; rewrite H in Hr;
          discriminate
      end.
  - pose proof (stuffed_data_marker_only (default [] packet_data)) as Hmark.
    rewrite Forall_forall in Hmark. apply list_elem_of_In in Hin.
    specialize (Hmark _ Hin eq_refl). discriminate.
Qed.

(** X6: a packet built by the encoder is a complete packet for the
    reassembly (start byte first, the only stop byte last) provided the
    checksum of its payload block is not 0x5A and the block is not 90 bytes
    long: the checksum and the length are sent XOR 0x55 behind a stuffing
    byte, and 0x5A XOR 0x55 is the stop byte. *)
Theorem packet_construction_complete (Type_value : string -> option Z)
    (packet_count packet_command : Z) (packet_type : string)
    (packet_data : option (list Z)) :
  Type_value packet_type = Some packet_command ->
  is_byte packet_count -> is_byte packet_command ->
  Forall is_byte (default [] packet_data) ->
  let block := payload_block packet_count packet_command packet_data in
  (length block <= 255)%nat ->
  Crc8_calc block <> 0x5A ->
  length block <> 90%nat ->
  exists packet,
    _packet_construction Type_value packet_count packet_type packet_data = Ok packet /\
    complete_packet packet = true.
Proof.
  intros HT Hc Hk Hd block Hlen Hcrc Hl90.
  eexists. split.
  - exact (packet_construction_ok Type_value _ _ _ _ HT Hc Hk Hd Hlen).
  - fold block. unfold complete_packet.
    assert (Hblock : (2 <= length block)%nat).
    { unfold block, payload_block. rewrite length_app. cbn [map length]. lia. }
    assert (Hstop : index STOP_BYTE
              ([0xF0; 0x81; Z.lxor (Crc8_calc block) 0x55; 0x81;
                Z.lxor (Z.of_nat (length block)) 0x55] ++ block ++ [0x0F])
              = Ok (5 + length block)%nat).
    { rewrite app_assoc.
      rewrite (index_first STOP_BYTE _ []).
      - rewrite length_app. reflexivity.
      - intros Hin. apply in_app_or in Hin as [Hin|Hin].
        + cbn [In] in Hin.
          destruct Hin as [H|[H|[H|[H|[H|[]]]]]]; try discriminate.
          * revert H. apply lxor_key_ne. exact Hcrc.
          * revert H. apply lxor_key_ne. change (Z.lxor STOP_BYTE 0x55) with 90. lia.
        + exact (payload_block_no_stop_byte _ _ _ Hin). }
    rewrite Hstop. cbn [app length]. rewrite length_app. cbn [length].
    rewrite !andb_true_iff. split; [split|].
    + apply Nat.leb_le. lia.
    + reflexivity.
    + apply Nat.eqb_eq. lia.
Qed.

Lemma packet_construction_complete_witness :
  exists packet,
    _packet_construction Type_example 3 "InitAck" (Some [0]) = Ok packet /\
    complete_packet packet = true.
Proof.
  apply (packet_construction_complete Type_example 3 2 "InitAck" (Some [0])).
  - reflexivity.
  - unfold is_byte. lia.
  - unfold is_byte. lia.
  - all_bytes. unfold is_byte. lia.
  - cbn. lia.
  - vm_compute. discriminate.
  - cbn. lia.
Defined.

(** X7: when the checksum of the payload block is 0x5A, the third byte
    of the packet is the stop byte, and the reassembly cuts the packet
    there: read back alone, a packet of more than 8 bytes comes out as the
    3-byte piece [0xF0, 0x81, 0x0F] followed by the rest. *)
Theorem packet_construction_cut_at_checksum (Type_value : string -> option Z)
    (packet_count packet_command : Z) (packet_type : string) (packet_data : list Z) :
  Type_value packet_type = Some packet_command ->
  is_byte packet_count -> is_byte packet_command ->
  Forall is_byte packet_data -> packet_data <> [] ->
  let block := payload_block packet_count packet_command (Some packet_data) in
  (length block <= 255)%nat ->
  Crc8_calc block = 0x5A ->
  length block <> 90%nat ->
  exists packet,
    _packet_construction Type_value packet_count packet_type (Some packet_data) = Ok packet /\
    complete_packet packet = false /\
    reassemble packet = Ok (Some [[0xF0; 0x81; 0x0F]; drop 3 packet]).
Proof.
  intros HT Hc Hk Hd Hne block Hlen Hcrc Hl90.
  eexists. split.
  - exact (packet_construction_ok Type_value _ _ _ (Some packet_data) HT Hc Hk Hd Hlen).
  - fold block. rewrite Hcrc. change (Z.lxor 0x5A 0x55) with 0x0F.
    assert (Hblock : (3 <= length block)%nat).
    { assert (Hb : length block
                   = (2 + (length packet_data + count_stuffed packet_data))%nat).
      { unfold block, payload_block. rewrite length_app, stuffed_data_length.
        reflexivity. }
      destruct packet_data as [|b rest]; [congruence|]. cbn [length] in Hb. lia. }
    set (len := Z.lxor (Z.of_nat (length block)) 0x55).
    assert (Hrest : index STOP_BYTE ([0x81; len] ++ block ++ [0x0F])
                    = Ok (2 + length block)%nat).
    { rewrite app_assoc. rewrite (index_first STOP_BYTE _ []).
      - rewrite length_app. reflexivity.
      - intros Hin. apply in_app_or in Hin as [Hin|Hin].
        + cbn [In] in Hin. destruct Hin as [H|[H|[]]]; try discriminate.
          revert H. apply lxor_key_ne. change (Z.lxor STOP_BYTE 0x55) with 90. lia.
        + exact (payload_block_no_stop_byte _ _ _ Hin). }
    split.
    + unfold complete_packet. cbn [app index]. cbn [Z.eqb Pos.eqb bind].
      cbn [length]. rewrite length_app. cbn [length].
      replace (3 =? S (S (S (S (S (length block + 1))))))%nat with false
        by (symmetry; apply Nat.eqb_neq; lia).
      apply andb_false_r.
    + unfold reassemble. cbn [app length]. rewrite length_app. cbn [length].
      replace (8 <? S (S (S (S (S (length block + 1))))))%nat with true
        by (symmetry; apply Nat.ltb_lt; lia).
      match goal with
      | |- context [index START_BYTE ?l] =>
          change (index START_BYTE l) with (@Ok nat 0%nat)
      end.
      cbn [bind]. rewrite drop_0.
      rewrite (split_packets_step _ _ 2) by reflexivity.
      cbn [Nat.add take drop app].
      rewrite (split_packets_step _ _ (2 + length block)) by exact Hrest.
      rewrite take_ge, drop_ge
        by (cbn [app length]; rewrite length_app; cbn [length]; lia).
      rewrite split_packets_equation_1. reflexivity.
Qed.

Lemma packet_construction_cut_at_checksum_witness :
  exists packet,
    _packet_construction Type_example 61 "InitAck" (Some [0]) = Ok packet /\
    complete_packet packet = false /\
    reassemble packet = Ok (Some [[0xF0; 0x81; 0x0F]; drop 3 packet]).
Proof.
  apply (packet_construction_cut_at_checksum Type_example 61 2 "InitAck" [0]).
  - reflexivity.
  - unfold is_byte. lia.
  - unfold is_byte. lia.
  - all_bytes. unfold is_byte. lia.
  - discriminate.
  - cbn. lia.
  - reflexivity.
  - cbn. lia.
Defined.

Example init_ack_61_is_cut :
  _init_ack Type_example 61 = Ok [0xF0; 0x81; 0x0F; 0x81; 0x56; 61; 2; 0; 0x0F] /\
  reassemble [0xF0; 0x81; 0x0F; 0x81; 0x56; 61; 2; 0; 0x0F]
  = Ok (Some [[0xF0; 0x81; 0x0F]; [0x81; 0x56; 61; 2; 0; 0x0F]]).
Proof. split; reflexivity. Qed.

(** X8: a packet without payload has 8 bytes, and 8 bytes are not more
    than 8: when such a packet (every watchdog packet is one) is all a read
    cycle delivers, [_read_packet] returns [None], not the packet. *)
Theorem read_packet_drops_empty_payload_packet (Type_value : string -> option Z)
    (packet_count packet_command : Z) (packet_type : string) (fuel : nat) :
  Type_value packet_type = Some packet_command ->
  is_byte packet_count -> is_byte packet_command -> (2 <= fuel)%nat ->
  exists packet,
    _packet_construction Type_value packet_count packet_type None = Ok packet /\
    length packet = 8%nat /\
    _read_packet fuel [packet] = Some (Ok None, []).
Proof.
  intros HT Hc Hk Hfuel. eexists. split.
  - apply (packet_construction_ok Type_value _ _ _ None HT Hc Hk (Forall_nil_2 _)).
    cbn. lia.
  - split; [reflexivity|]. unfold _read_packet.
    rewrite read_until_idle_single; [reflexivity | exact Hfuel | reflexivity].
Qed.

Lemma read_packet_drops_empty_payload_packet_witness :
  exists packet,
    _packet_construction Type_example 3 "Watchdog" None = Ok packet /\
    length packet = 8%nat /\
    _read_packet 2 [packet] = Some (Ok None, []).
Proof.
  apply (read_packet_drops_empty_payload_packet Type_example 3 4 "Watchdog" 2).
  - reflexivity.
  - unfold is_byte. lia.
  - unfold is_byte. lia.
  - lia.
Defined.

(** * Further properties of the telemetry decoders *)

Lemma getitem_lt (l : list Z) (i : nat) : (i < length l)%nat -> exists b, getitem l i = Ok b.
Proof.
  intros H. unfold getitem. destruct (lookup_lt_is_Some_2 l i H) as [b ->].
  eexists. reflexivity.
Qed.

Lemma getitem_ge (l : list Z) (i : nat) : (length l <= i)%nat -> getitem l i = Raise IndexError.
Proof.
  intros H. unfold getitem. rewrite (lookup_ge_None_2 l i H). reflexivity.
Qed.

Lemma getitem_raise (l : list Z) (i : nat) (e : py_exception) :
  getitem l i = Raise e -> e = IndexError.
Proof.
  unfold getitem. destruct (l !! i); [discriminate|]. intros [= <-]. reflexivity.
Qed.

Lemma getitem_is_byte (l : list Z) (i : nat) (b : Z) :
  Forall is_byte l -> getitem l i = Ok b -> is_byte b.
Proof.
  intros Hl. unfold getitem. destruct (l !! i) as [x|] eqn:E; [|discriminate].
  intros [= <-]. rewrite Forall_forall in Hl. apply Hl.
  apply list_elem_of_lookup. exists i. exact E.
Qed.

(** Case analysis on every [getitem] of a decoder. *)
Ltac getitem_cases :=
  repeat match goal with
         | |- context [bind (getitem ?l ?i) _] =>
             let E := fresh "E" in
             destruct (getitem l i) eqn:E; cbn [bind fst snd]
         | |- context [if ?b =? 129 then _ else _] =>
             destruct (b =? 129); cbn [bind fst snd]
         end.

Lemma decode_actual_values_long (packet : list Z) :
  (15 <= length packet)%nat -> exists v, decode_actual_values packet = Ok v.
Proof.
  intros Hlen. unfold decode_actual_values. getitem_cases;
    try (eexists; reflexivity);
    match goal with
    | E : getitem packet ?i = Raise _ |- _ =>
        destruct (getitem_lt packet i) as [b Hb]; [cbn; lia | congruence]
    end.
Qed.

Lemma decode_actual_values_short (packet : list Z) :
  (length packet <= 12)%nat -> decode_actual_values packet = Raise IndexError.
Proof.
  intros Hlen. unfold decode_actual_values. getitem_cases;
    try (match goal with
         | E : getitem packet _ = Raise ?e |- Raise ?e = _ =>
             rewrite (getitem_raise _ _ _ E); reflexivity
         end);
    match goal with
    | E : getitem packet (12 + ?c) = Ok _ |- _ =>
        rewrite (getitem_ge packet (12 + c)) in E by lia; discriminate
    end.
Qed.

(** X13: the Actual-Values decoder and the length of the packet.  With
    15 bytes or more it decodes a sample and puts it into the buffer
    whatever the bytes are; with 12 bytes or fewer it raises
    [IndexError]. *)
Theorem actual_values_ack_length (s : Rehastim) (packet : list Z) :
  ((15 <= length packet)%nat ->
   exists v, _actual_values_ack s packet =
             Ok (set_motomed_values
                   (append_column max_motomed_values (motomed_values s) v) s)) /\
  ((length packet <= 12)%nat -> _actual_values_ack s packet = Raise IndexError).
Proof.
  unfold _actual_values_ack. split; intros Hlen.
  - destruct (decode_actual_values_long packet Hlen) as [v ->]. exists v. reflexivity.
  - rewrite (decode_actual_values_short packet Hlen). reflexivity.
Qed.

Lemma actual_values_ack_length_witness :
  exists v, _actual_values_ack Rehastim_init
              [0xF0; 0x81; 0; 0x81; 0; 0; 60; 1; 0x81; 0; 0x81; 0x81; 9; 0x81; 0x0F] =
            Ok (set_motomed_values
                  (append_column max_motomed_values (motomed_values Rehastim_init) v)
                  Rehastim_init).
Proof.
  apply (proj1 (actual_values_ack_length Rehastim_init
                  [0xF0; 0x81; 0; 0x81; 0; 0; 60; 1; 0x81; 0; 0x81; 0x81; 9; 0x81; 0x0F])).
  cbn. lia.
Defined.

Lemma decode_phase_result_short (packet : list Z) :
  (length packet < 23)%nat -> decode_phase_result packet = Raise IndexError.
Proof.
  intros Hlen. unfold decode_phase_result. getitem_cases;
    try (match goal with
         | E : getitem packet _ = Raise ?e |- Raise ?e = _ =>
             rewrite (getitem_raise _ _ _ E); reflexivity
         end).
  match goal with
  | E : getitem packet 22 = Ok _ |- _ =>
      rewrite (getitem_ge packet 22) in E by lia; discriminate
  end.
Qed.

Lemma decode_phase_result_long (packet : list Z) :
  (23 <= length packet)%nat ->
  decode_phase_result packet =
  Ok (mkPhaseResult (Some (packet !!! 8%nat * 255 + packet !!! 9%nat)) None
        (Some (packet !!! 12%nat)) (Some (packet !!! 13%nat)) None None None
        (Some (packet !!! 20%nat)) (Some (packet !!! 21%nat)) (Some (packet !!! 22%nat))).
Proof.
  intros Hlen. unfold decode_phase_result.
  assert (Hget : forall i, (i < 23)%nat -> getitem packet i = Ok (packet !!! i)).
  { intros i Hi. unfold getitem.
    rewrite (list_lookup_lookup_total_lt packet i) by lia. reflexivity. }
  rewrite !Hget by lia. reflexivity.
Qed.

(** X14: the Phase-Result decoder.  A packet of fewer than 23 bytes
    raises [IndexError].  A packet of 23 bytes or more always decodes: the
    passive distance is byte 8 times 255 plus byte 9, bytes 12, 13, 20, 21
    and 22 are stored as they are, and the four other fields are [None]
    whatever bytes 10, 11 and 14 to 19 hold. *)
Theorem phase_result_ack_length (s : Rehastim) (packet : list Z) :
  ((length packet < 23)%nat -> _phase_result_ack s packet = Raise IndexError) /\
  ((23 <= length packet)%nat ->
   _phase_result_ack s packet =
   Ok (set_last_phase_result
         (append_column max_phase_result (last_phase_result s)
            (mkPhaseResult (Some (packet !!! 8%nat * 255 + packet !!! 9%nat)) None
               (Some (packet !!! 12%nat)) (Some (packet !!! 13%nat)) None None None
               (Some (packet !!! 20%nat)) (Some (packet !!! 21%nat))
               (Some (packet !!! 22%nat))))
         s)).
Proof.
  unfold _phase_result_ack. split; intros Hlen.
  - rewrite (decode_phase_result_short packet Hlen). reflexivity.
  - rewrite (decode_phase_result_long packet Hlen). reflexivity.
Qed.

Lemma phase_result_ack_length_witness :
  _phase_result_ack Rehastim_init [0xF0; 0x81; 0; 0x81; 0; 2; 61; 0; 1; 2; 0x0F] =
  Raise IndexError.
Proof.
  apply (proj1 (phase_result_ack_length Rehastim_init
                  [0xF0; 0x81; 0; 0x81; 0; 2; 61; 0; 1; 2; 0x0F])).
  cbn. lia.
Defined.

Lemma lxor_key_nonneg_range (n x : Z) :
  7 <= n -> 0 <= x < 2 ^ n -> 0 <= Z.lxor x 0x55 < 2 ^ n.
Proof.
  intros Hn [Hlo Hhi].
  assert (Hnn : 0 <= Z.lxor x 0x55) by (apply Z.lxor_nonneg; lia).
  split; [exact Hnn|].
  destruct (Z.eq_dec (Z.lxor x 0x55) 0) as [->|Hne]; [apply Z.pow_pos_nonneg; lia|].
  apply Z.log2_lt_pow2; [lia|].
  eapply Z.le_lt_trans; [apply Z.log2_lxor; lia|].
  apply Z.max_lub_lt.
  - destruct (Z.eq_dec x 0) as [->|Hx]; [cbn; lia|]. apply Z.log2_lt_pow2; lia.
  - change (Z.log2 0x55) with 6. lia.
Qed.

Lemma lxor_key_signed_range (n x : Z) :
  7 <= n -> - 2 ^ n <= x < 2 ^ n -> - 2 ^ n <= Z.lxor x 0x55 < 2 ^ n.
Proof.
  intros Hn [Hlo Hhi]. destruct (Z.neg_nonneg_cases x) as [Hneg|Hpos].
  - assert (Hl : 0 <= Z.lnot x < 2 ^ n) by (unfold Z.lnot; lia).
    pose proof (lxor_key_nonneg_range n (Z.lnot x) Hn Hl) as Hr.
    rewrite <- Z.lnot_lxor_l in Hr. unfold Z.lnot in Hr. lia.
  - pose proof (lxor_key_nonneg_range n x Hn (conj Hpos Hhi)). lia.
Qed.

Lemma signed_int_one_byte (l : list Z) :
  Forall is_byte l -> (length l <= 1)%nat -> -128 <= signed_int l <= 127.
Proof.
  intros Hl Hlen. destruct l as [|b [|c l]];
    [change (signed_int []) with 0; lia | | cbn in Hlen; lia].
  apply Forall_inv in Hl. unfold is_byte in Hl. unfold signed_int.
  cbn [fold_left length]. change (8 * Z.of_nat 1) with 8.
  change (8 =? 0) with false. change (2 ^ (8 - 1)) with 128. change (2 ^ 8) with 256.
  cbv iota. destruct (Z.leb_spec 128 (0 * 256 + b)); lia.
Qed.

Lemma slice_one_byte (packet : list Z) (i : nat) :
  Forall is_byte packet ->
  Forall is_byte (slice packet i (i + 1)) /\ (length (slice packet i (i + 1)) <= 1)%nat.
Proof.
  intros Hp. unfold slice. split.
  - apply Forall_take, Forall_drop, Hp.
  - rewrite length_take. lia.
Qed.

Lemma signed_int_slice (packet : list Z) (i j : nat) :
  Forall is_byte packet -> j = (i + 1)%nat -> -128 <= signed_int (slice packet i j) <= 127.
Proof.
  intros Hp ->. destruct (slice_one_byte packet i Hp) as [Hb Hl].
  apply signed_int_one_byte; assumption.
Qed.

(** X15: whatever bytes a packet holds, stuffed or not, a sample that
    the Actual-Values decoder returns has its speed and its torque between
    -128 and 127 and its angle between -32768 and 32767. *)
Theorem decode_actual_values_range (packet : list Z) (v : ActualValues) :
  Forall is_byte packet ->
  decode_actual_values packet = Ok v ->
  -32768 <= angle v <= 32767 /\ -128 <= speed v <= 127 /\ -128 <= torque v <= 127.
Proof.
  intros Hp. unfold decode_actual_values.
  pose proof (signed_int_slice packet 7 8 Hp eq_refl) as H7.
  pose proof (signed_int_slice packet 10 11 Hp eq_refl) as H10.
  pose proof (signed_int_slice packet 12 13 Hp eq_refl) as H12.
  pose proof (fun i j => signed_int_slice packet i j Hp) as Hs.
  assert (Hx8 : forall x, -128 <= x <= 127 -> -128 <= Z.lxor x STUFFING_KEY <= 127).
  { intros x Hx. pose proof (lxor_key_signed_range 7 x ltac:(lia)) as H.
    change (2 ^ 7) with 128 in H. unfold STUFFING_KEY. lia. }
  assert (Hx16 : forall x, -32768 <= x <= 32767 -> -32768 <= Z.lxor x STUFFING_KEY <= 32767).
  { intros x Hx. pose proof (lxor_key_signed_range 15 x ltac:(lia)) as H.
    change (2 ^ 15) with 32768 in H. unfold STUFFING_KEY. lia. }
  destruct (getitem packet 8) as [p8|] eqn:E8; cbn [bind]; [|discriminate].
  pose proof (getitem_is_byte _ _ _ Hp E8) as Hb8. unfold is_byte in Hb8.
  assert (Hangle :
    forall ac,
      (if p8 =? 129
       then p9 <- getitem packet 9 ;;
            Ok (Z.lxor (255 * signed_int (slice packet 7 8) + p9) STUFFING_KEY, 1%nat)
       else Ok (255 * signed_int (slice packet 7 8) + p8, 0%nat)) = Ok ac ->
      -32768 <= fst ac <= 32767).
  { intros ac. destruct (p8 =? 129).
    - destruct (getitem packet 9) as [p9|] eqn:E9; cbn [bind]; [|discriminate].
      pose proof (getitem_is_byte _ _ _ Hp E9) as Hb9. unfold is_byte in Hb9.
      intros [= <-]. cbn [fst]. apply Hx16. lia.
    - intros [= <-]. cbn [fst]. lia. }
  match goal with
  | |- context [bind ?m _] => destruct m as [ac|] eqn:Eac; cbn [bind]; [|discriminate]
  end.
  specialize (Hangle ac eq_refl).
  destruct (getitem packet (10 + snd ac)) as [ps|]; cbn [bind]; [|discriminate].
  destruct (ps =? 129); cbn [bind fst snd];
    (match goal with
     | |- context [getitem packet ?i] => destruct (getitem packet i) as [pt|]
     end; cbn [bind]; [|discriminate]);
    destruct (pt =? 129); intros [= <-]; cbn [angle speed torque];
    repeat split; try apply Hx8; try apply Hs; try (apply Hangle); try lia.
Qed.

Lemma decode_actual_values_range_witness :
  -32768 <= angle (mkActualValues 170 7 9) <= 32767 /\
  -128 <= speed (mkActualValues 170 7 9) <= 127 /\
  -128 <= torque (mkActualValues 170 7 9) <= 127.
Proof.
  apply (decode_actual_values_range
           [0xF0; 0x81; 0; 0x81; 0; 0; 60; 1; 0x81; 0; 7; 5; 9; 11; 0x0F]).
  - all_bytes; unfold is_byte; lia.
  - reflexivity.
Defined.

(** * Further properties of sending and of the link state *)

Lemma send_generic_packet_effect (Type_value : string -> option Z) (cmd : string)
    (packet : list Z) (packet_number : Z) (w w' : World) :
  _send_generic_packet Type_value cmd packet packet_number w = Ok w' ->
  exists written,
    port_written w' = port_written w ++ [written] /\
    packet_send_history (self w') = written /\
    packet_count (self w') = (packet_count (self w) + 1) mod 256 /\
    time_last_cmd (self w') = clock w /\
    clock w' = clock w /\
    motomed_values (self w') = motomed_values (self w) /\
    last_phase_result (self w') = last_phase_result (self w) /\
    reha_connected (self w') = (if String.eqb cmd "InitAck" then true
                                else reha_connected (self w)).
Proof.
  unfold _send_generic_packet.
  destruct (String.eqb cmd "InitAck") eqn:Ei.
  - destruct (_init_ack Type_value packet_number) as [p|e]; cbn [bind]; [|discriminate].
    intros [= <-]. exists p. cbn. repeat split; reflexivity.
  - destruct (String.eqb cmd "Watchdog").
    + destruct (_packet_watchdog Type_value (self w)) as [p|e]; cbn [bind]; [|discriminate].
      intros [= <-]. exists p. cbn. repeat split; reflexivity.
    + cbn [bind]. intros [= <-]. exists packet. cbn. repeat split; reflexivity.
Qed.

Lemma send_all_effect (Type_value : string -> option Z)
    (commands : list (string * list Z)) :
  forall (w w' : World),
  send_all Type_value commands w = Ok w' ->
  exists written,
    port_written w' = port_written w ++ written /\
    length written = length commands /\
    (packet_count (self w')) mod 256
    = (packet_count (self w) + Z.of_nat (length commands)) mod 256 /\
    (commands <> [] -> 0 <= packet_count (self w') < 256) /\
    clock w' = clock w.
Proof.
  induction commands as [|[cmd packet] commands IH]; intros w w'; cbn [send_all].
  - intros [= <-]. exists []. rewrite app_nil_r, Z.add_0_r.
    split; [reflexivity|]. split; [reflexivity|]. split; [reflexivity|].
    split; [congruence | reflexivity].
  - destruct (_send_generic_packet Type_value cmd packet (packet_count (self w)) w)
      as [w1|e] eqn:E1; cbn [bind]; [|discriminate].
    intros Hrest.
    destruct (send_generic_packet_effect _ _ _ _ _ _ E1)
      as (p & Hport & _ & Hcount & _ & Hclock & _).
    destruct (IH _ _ Hrest) as (written & Hport' & Hlen & Hcount' & Hrange & Hclock').
    exists (p :: written). split; [|split; [|split; [|split]]].
    + rewrite Hport', Hport, <- app_assoc. reflexivity.
    + cbn [length]. rewrite Hlen. reflexivity.
    + rewrite Hcount', Hcount. cbn [length]. rewrite Zplus_mod_idemp_l.
      f_equal. lia.
    + intros _. destruct commands as [|c commands].
      * cbn [send_all] in Hrest. injection Hrest as <-. rewrite Hcount.
        apply Z.mod_pos_bound. lia.
      * apply Hrange. discriminate.
    + rewrite Hclock', Hclock. reflexivity.
Qed.

(** X16: the packet counter.  After any run of commands sent without an
    exception, starting from a counter that fits one byte, the counter is
    the old one plus the number of commands, modulo 256 (so 256 sends bring
    it back), it still fits one byte, and the port has received exactly one
    packet per command, after those it had received before. *)
Theorem send_all_packet_count (Type_value : string -> option Z)
    (commands : list (string * list Z)) (w w' : World) :
  is_byte (packet_count (self w)) ->
  send_all Type_value commands w = Ok w' ->
  packet_count (self w') = (packet_count (self w) + Z.of_nat (length commands)) mod 256 /\
  is_byte (packet_count (self w')) /\
  exists written,
    port_written w' = port_written w ++ written /\ length written = length commands.
Proof.
  intros Hb Hsend.
  destruct (send_all_effect _ _ _ _ Hsend) as (written & Hport & Hlen & Hcount & Hrange & _).
  assert (Hb' : is_byte (packet_count (self w'))).
  { destruct commands as [|c commands].
    - cbn [send_all] in Hsend. injection Hsend as <-. exact Hb.
    - unfold is_byte. specialize (Hrange ltac:(discriminate)). lia. }
  split; [|split; [exact Hb'|]].
  - rewrite <- Hcount. symmetry. apply Z.mod_small. unfold is_byte in Hb'. lia.
  - exists written. split; assumption.
Qed.

Lemma send_all_packet_count_witness :
  let w := mkWorld (mkRehastim 0 254 true [] None None) 5 [] in
  let commands := [("Watchdog"%string, []); ("GetStimulationMode"%string, [1; 2; 3]);
                   ("InitAck"%string, [])] in
  let w' := match send_all Type_example commands w with
            | Ok w' => w'
            | Raise _ => w
            end in
  packet_count (self w') = (packet_count (self w) + Z.of_nat (length commands)) mod 256 /\
  is_byte (packet_count (self w')) /\
  exists written,
    port_written w' = port_written w ++ written /\ length written = length commands.
Proof.
  intros w commands w'.
  apply (send_all_packet_count Type_example commands w w').
  - unfold is_byte. cbn. lia.
  - vm_compute. reflexivity.
Defined.

Example send_all_wraps :
  let w := mkWorld (mkRehastim 0 254 true [] None None) 5 [] in
  match send_all Type_example
          [("Watchdog"%string, []); ("GetStimulationMode"%string, [1; 2; 3]);
           ("InitAck"%string, [])] w with
  | Ok w' =>
      packet_count (self w') = 1 /\
      port_written w' = [[0xF0; 0x81; 0x8B; 0x81; 0x57; 254; 4; 0x0F];
                         [1; 2; 3];
                         [0xF0; 0x81; 0x7F; 0x81; 0x56; 0; 2; 0; 0x0F]]
  | Raise _ => False
  end.
Proof. vm_compute. split; reflexivity. Qed.

Lemma set_reha_connected_same (w : World) :
  set_reha_connected (reha_connected (self w)) w = w.
Proof. destruct w as [[t c r h mv lp] k p]. reflexivity. Qed.

Lemma is_connected_no_timeout (w : World) :
  (time_last_cmd (self w) <= clock w)%Q ->
  is_connected w = (reha_connected (self w), w).
Proof.
  intros Hle. unfold is_connected.
  replace (Qgt_bool (binary64 (time_last_cmd (self w) - clock w)) (binary64 1.2))
    with false.
  2: { symmetry. apply Qgt_bool_false_iff.
       pose proof (binary64_nonpos (time_last_cmd (self w) - clock w) ltac:(lra)).
       pose proof binary64_1_2_pos. lra. }
  cbn [orb]. destruct (reha_connected (self w)) eqn:E; cbn [negb]; [reflexivity|].
  pose proof (set_reha_connected_same w) as Hsame. rewrite E in Hsame.
  rewrite Hsame. reflexivity.
Qed.

(** X17: once a command has been sent, the passing of time alone never
    disconnects.  After a send that ends without exception, at the time of
    the send and after any further delay, [is_connected] returns the flag as
    it stands and changes nothing; after a send of InitAck that is [True]. *)
Theorem is_connected_after_send (Type_value : string -> option Z) (cmd : string)
    (packet : list Z) (packet_number : Z) (w w' : World) (delay : Q) :
  _send_generic_packet Type_value cmd packet packet_number w = Ok w' ->
  (0 <= delay)%Q ->
  is_connected (sleep delay w') = (reha_connected (self w'), sleep delay w') /\
  (cmd = "InitAck"%string -> reha_connected (self w') = true).
Proof.
  intros Hsend Hdelay.
  destruct (send_generic_packet_effect _ _ _ _ _ _ Hsend)
    as (p & _ & _ & _ & Htime & Hclock & _ & _ & Hflag).
  split.
  - apply (is_connected_no_timeout (sleep delay w')). cbn [sleep self clock].
    rewrite Htime, Hclock. lra.
  - intros ->. rewrite Hflag. reflexivity.
Qed.

Lemma is_connected_after_send_witness :
  let w := mkWorld (mkRehastim 0 3 false [] None None) 5 [] in
  let w' := match _send_generic_packet Type_example "InitAck" [] 3 w with
            | Ok w' => w'
            | Raise _ => w
            end in
  is_connected (sleep 3600 w') = (reha_connected (self w'), sleep 3600 w') /\
  ("InitAck"%string = "InitAck"%string -> reha_connected (self w') = true).
Proof.
  intros w w'.
  apply (is_connected_after_send Type_example "InitAck" [] 3 w w' 3600).
  - vm_compute. reflexivity.
  - apply Qle_bool_iff. reflexivity.
Defined.

(** X18: a cleared flag stays cleared.  After [_stop_watchdog], whatever
    the clock reads and whatever the time of the last command is,
    [is_connected] returns [False] and leaves the flag clear, so asking
    again gives [False] again; and the watchdog loop stops at its next turn
    without writing anything, whatever the command table is. *)
Theorem stop_watchdog_is_final (Type_value : string -> option Z) (w : World) (delay : Q)
    (others : list (World -> World)) :
  let stopped := sleep delay (_stop_watchdog w) in
  fst (is_connected stopped) = false /\
  is_connected (snd (is_connected stopped)) = is_connected stopped /\
  exists w',
    _watchdog Type_value (sleep delay :: others) (_stop_watchdog w) = Ok (Stopped, w') /\
    port_written w' = port_written w /\
    reha_connected (self w') = false.
Proof.
  cbv zeta.
  assert (Hc : forall v, reha_connected (self v) = false ->
                         is_connected v = (false, set_reha_connected false v)).
  { intros v Hv. unfold is_connected. rewrite Hv. cbn [negb]. rewrite orb_true_r.
    reflexivity. }
  assert (Hflag : reha_connected (self (sleep delay (_stop_watchdog w))) = false)
    by reflexivity.
  rewrite (Hc _ Hflag). cbn [fst snd]. split; [reflexivity|]. split.
  - rewrite (Hc (set_reha_connected false _)) by reflexivity. reflexivity.
  - eexists. split.
    + cbn [_watchdog]. unfold watchdog_iteration. rewrite (Hc _ Hflag).
      cbn [fst snd bind]. reflexivity.
    + split; reflexivity.
Qed.

(** * The dispatch loop and the acknowledgements *)

Section DispatchFacts.

Variable Type_value : string -> option Z.
Variable Type_values : list Z.
Variables phase actual done : Z.
Hypothesis PhaseResult_code : Type_value "PhaseResult"%string = Some phase.
Hypothesis ActualValues_code : Type_value "ActualValues"%string = Some actual.
Hypothesis MotomedCommandDone_code : Type_value "MotomedCommandDone"%string = Some done.

Lemma has_code_getitem (packet : list Z) (c : Z) :
  has_code packet c -> (7 <? length packet)%nat = true /\ getitem packet 6 = Ok c.
Proof.
  intros [Hlen Hc]. split; [apply Nat.ltb_lt, Hlen|].
  unfold getitem. rewrite Hc. reflexivity.
Qed.

Lemma existsb_eqb_In (c : Z) (l : list Z) : existsb (Z.eqb c) l = true <-> In c l.
Proof.
  rewrite existsb_exists. split.
  - intros (x & Hin & Heq). apply Z.eqb_eq in Heq. subst x. exact Hin.
  - intros Hin. exists c. split; [exact Hin | apply Z.eqb_refl].
Qed.

Lemma dispatch_packet_ack (sm : Rehastim * Mailboxes) (packet : list Z) (c : Z) :
  has_code packet c -> is_ack_code phase actual done Type_values c ->
  dispatch_packet Type_value Type_values sm packet =
  Ok (fst sm, mkMailboxes (Some packet) (last_init_ack (snd sm)) (event (snd sm)) true).
Proof.
  intros Hc (Hp & Ha & H90 & Hd & Hin & H1).
  destruct (has_code_getitem _ _ Hc) as [Hlen Hget].
  unfold dispatch_packet, Type_getitem. rewrite Hlen, Hget. cbn [bind].
  rewrite PhaseResult_code. cbn [bind].
  rewrite (proj2 (Z.eqb_neq c phase) Hp), ActualValues_code. cbn [bind].
  rewrite (proj2 (Z.eqb_neq c actual) Ha), (proj2 (Z.eqb_neq c 90) H90).
  rewrite MotomedCommandDone_code. cbn [bind].
  rewrite (proj2 (Z.eqb_neq c done) Hd), (proj2 (existsb_eqb_In c Type_values) Hin).
  rewrite (proj2 (Z.eqb_neq c 1) H1). reflexivity.
Qed.

Lemma dispatch_packet_init_ack (sm : Rehastim * Mailboxes) (packet : list Z) :
  has_code packet 1 -> phase <> 1 -> actual <> 1 -> done <> 1 -> In 1 Type_values ->
  dispatch_packet Type_value Type_values sm packet =
  Ok (fst sm, mkMailboxes (last_ack (snd sm)) (Some packet) (event (snd sm)) true).
Proof.
  intros Hc Hp Ha Hd Hin.
  destruct (has_code_getitem _ _ Hc) as [Hlen Hget].
  unfold dispatch_packet, Type_getitem. rewrite Hlen, Hget. cbn [bind].
  rewrite PhaseResult_code. cbn [bind].
  replace (1 =? phase) with false by (symmetry; apply Z.eqb_neq; congruence).
  rewrite ActualValues_code. cbn [bind].
  replace (1 =? actual) with false by (symmetry; apply Z.eqb_neq; congruence).
  change (1 =? 90) with false. cbv iota.
  rewrite MotomedCommandDone_code. cbn [bind].
  replace (1 =? done) with false by (symmetry; apply Z.eqb_neq; congruence).
  rewrite (proj2 (existsb_eqb_In 1 Type_values) Hin). reflexivity.
Qed.

Lemma dispatch_list_acks (acks : list (list Z)) :
  Forall (fun packet => exists c, has_code packet c /\
                                  is_ack_code phase actual done Type_values c) acks ->
  forall (s : Rehastim) (m : Mailboxes),
  exists m',
    dispatch_list Type_value Type_values (s, m) acks = Ok (s, m') /\
    last_init_ack m' = last_init_ack m /\ event m' = event m /\
    last_ack m' = match last acks with Some a => Some a | None => last_ack m end /\
    event_ack m' = match acks with [] => event_ack m | _ => true end.
Proof.
  induction 1 as [|a acks (c & Hc & Hack) _ IH]; intros s m.
  - exists m. repeat split; reflexivity.
  - cbn [dispatch_list]. rewrite (dispatch_packet_ack _ _ _ Hc Hack). cbn [bind fst snd].
    destruct (IH s (mkMailboxes (Some a) (last_init_ack m) (event m) true))
      as (m' & -> & Hi & He & Hl & Hea).
    exists m'. split; [reflexivity|]. cbn in Hi, He, Hl, Hea.
    split; [exact Hi|]. split; [exact He|]. split.
    + rewrite Hl. destruct acks as [|b acks]; [reflexivity|].
      rewrite last_cons_cons. destruct (last (b :: acks)) eqn:El; [reflexivity|].
      apply last_None in El. discriminate.
    + rewrite Hea. destruct acks; reflexivity.
Qed.

End DispatchFacts.

(** X19: what the dispatch loop ignores.  A packet of 7 bytes or fewer
    changes nothing, and so does a longer packet that is neither
    Phase-Result nor Actual-Values and whose command byte is 90, or is
    neither MotomedCommandDone nor any value of the command table: no
    exception, no trace. *)
Theorem dispatch_packet_ignored (Type_value : string -> option Z) (Type_values : list Z)
    (phase actual done : Z) (sm : Rehastim * Mailboxes) (packet : list Z) :
  Type_value "PhaseResult"%string = Some phase ->
  Type_value "ActualValues"%string = Some actual ->
  Type_value "MotomedCommandDone"%string = Some done ->
  ((length packet <= 7)%nat \/
   exists c, has_code packet c /\ c <> phase /\ c <> actual /\
             (c = 90 \/ c <> done /\ ~ In c Type_values)) ->
  dispatch_packet Type_value Type_values sm packet = Ok sm.
Proof.
  intros Hph Hav Hdn [Hshort|(c & Hc & Hp & Ha & Hrest)]; unfold dispatch_packet.
  - replace (7 <? length packet)%nat with false
      by (symmetry; apply Nat.ltb_ge; exact Hshort).
    reflexivity.
  - destruct (has_code_getitem _ _ Hc) as [Hlen Hget].
    unfold Type_getitem. rewrite Hlen, Hget. cbn [bind]. rewrite Hph. cbn [bind].
    rewrite (proj2 (Z.eqb_neq c phase) Hp), Hav. cbn [bind].
    rewrite (proj2 (Z.eqb_neq c actual) Ha).
    destruct Hrest as [->|[Hd Hnin]]; [reflexivity|].
    destruct (c =? 90); [reflexivity|]. rewrite Hdn. cbn [bind].
    rewrite (proj2 (Z.eqb_neq c done) Hd).
    destruct (existsb (Z.eqb c) Type_values) eqn:E; [|reflexivity].
    apply existsb_eqb_In in E. contradiction.
Qed.

Lemma dispatch_packet_ignored_witness :
  dispatch_packet
    (fun name => if String.eqb name "PhaseResult" then Some 91
                 else if String.eqb name "ActualValues" then Some 60
                 else if String.eqb name "MotomedCommandDone" then Some 89 else None)
    [1; 2; 4; 60; 89; 91]
    (Rehastim_init, Mailboxes_init)
    [0xF0; 0x81; 0; 0x81; 0; 7; 200; 1; 2; 3; 0x0F]
  = Ok (Rehastim_init, Mailboxes_init).
Proof.
  apply (dispatch_packet_ignored _ _ 91 60 89); try reflexivity.
  right. exists 200. split; [split; [cbn; lia | reflexivity]|].
  split; [lia|]. split; [lia|]. right. split; [lia|].
  cbn [In]. lia.
Defined.

(** X20: the acknowledgement mailbox keeps one packet.  When the
    dispatch loop handles a run of acknowledgement packets, [last_ack] ends
    up holding the last of them and the earlier ones are gone; the telemetry
    buffers, the other mailbox and the [event] flag are untouched.
    [_get_last_ack] then returns that packet and empties the mailbox, and a
    second call finds nothing and waits. *)
Theorem dispatch_acks_then_get (Type_value : string -> option Z) (Type_values : list Z)
    (phase actual done : Z) (s : Rehastim) (m : Mailboxes)
    (acks : list (list Z)) (ack : list Z) :
  Type_value "PhaseResult"%string = Some phase ->
  Type_value "ActualValues"%string = Some actual ->
  Type_value "MotomedCommandDone"%string = Some done ->
  Forall (fun packet => exists c, has_code packet c /\
                                  is_ack_code phase actual done Type_values c)
         (acks ++ [ack]) ->
  exists m' m'',
    dispatch_list Type_value Type_values (s, m) (acks ++ [ack]) = Ok (s, m') /\
    last_init_ack m' = last_init_ack m /\ event m' = event m /\
    _get_last_ack_motomed false m' = Some (ack, m'') /\
    last_ack m'' = None /\
    _get_last_ack_motomed false m'' = None.
Proof.
  intros Hph Hav Hdn Hall.
  destruct (dispatch_list_acks Type_value Type_values phase actual done Hph Hav Hdn
              _ Hall s m) as (m' & Hd & Hi & He & Hl & _).
  rewrite last_snoc in Hl.
  assert (Hne : exists b rest, ack = b :: rest).
  { apply Forall_app in Hall as [_ Hack]. apply Forall_inv in Hack as (c & [Hlen _] & _).
    destruct ack as [|b rest]; [cbn in Hlen; lia|]. eexists _, _. reflexivity. }
  destruct Hne as (b & rest & ->).
  exists m', (mkMailboxes None (last_init_ack m') (event m') (event_ack m')).
  split; [exact Hd|]. split; [exact Hi|]. split; [exact He|].
  unfold _get_last_ack_motomed. rewrite Hl. cbn. repeat split; reflexivity.
Qed.

Lemma dispatch_acks_then_get_witness :
  let table := fun name => if String.eqb name "PhaseResult" then Some 91
                           else if String.eqb name "ActualValues" then Some 60
                           else if String.eqb name "MotomedCommandDone" then Some 89
                           else None in
  let a1 := [0xF0; 0x81; 0; 0x81; 0; 7; 2; 1; 0x0F] in
  let a2 := [0xF0; 0x81; 0; 0x81; 0; 8; 4; 0; 0x0F] in
  exists m' m'',
    dispatch_list table [1; 2; 4; 60; 89; 91] (Rehastim_init, Mailboxes_init) ([a1] ++ [a2])
    = Ok (Rehastim_init, m') /\
    last_init_ack m' = last_init_ack Mailboxes_init /\ event m' = event Mailboxes_init /\
    _get_last_ack_motomed false m' = Some (a2, m'') /\
    last_ack m'' = None /\
    _get_last_ack_motomed false m'' = None.
Proof.
  intros table a1 a2.
  apply (dispatch_acks_then_get table [1; 2; 4; 60; 89; 91] 91 60 89); try reflexivity.
  apply Forall_cons_2; [|apply Forall_cons_2; [|apply Forall_nil_2]].
  - exists 2. split; [split; [cbn; lia | reflexivity]|].
    unfold is_ack_code. cbn [In]. lia.
  - exists 4. split; [split; [cbn; lia | reflexivity]|].
    unfold is_ack_code. cbn [In]. lia.
Defined.

Lemma actual_values_ack_keeps (s s' : Rehastim) (packet : list Z) :
  _actual_values_ack s packet = Ok s' ->
  time_last_cmd s' = time_last_cmd s /\ packet_count s' = packet_count s /\
  reha_connected s' = reha_connected s /\
  packet_send_history s' = packet_send_history s /\
  last_phase_result s' = last_phase_result s.
Proof.
  unfold _actual_values_ack.
  destruct (decode_actual_values packet); cbn [bind]; [|discriminate].
  intros [= <-]. repeat split; reflexivity.
Qed.

Lemma phase_result_ack_keeps (s s' : Rehastim) (packet : list Z) :
  _phase_result_ack s packet = Ok s' ->
  time_last_cmd s' = time_last_cmd s /\ packet_count s' = packet_count s /\
  reha_connected s' = reha_connected s /\
  packet_send_history s' = packet_send_history s /\
  motomed_values s' = motomed_values s.
Proof.
  unfold _phase_result_ack.
  destruct (decode_phase_result packet); cbn [bind]; [|discriminate].
  intros [= <-]. repeat split; reflexivity.
Qed.

Lemma dispatch_packet_keeps (Type_value : string -> option Z) (Type_values : list Z)
    (sm sm' : Rehastim * Mailboxes) (packet : list Z) :
  dispatch_packet Type_value Type_values sm packet = Ok sm' ->
  (time_last_cmd (fst sm') = time_last_cmd (fst sm) /\
   packet_count (fst sm') = packet_count (fst sm) /\
   reha_connected (fst sm') = reha_connected (fst sm) /\
   packet_send_history (fst sm') = packet_send_history (fst sm)) /\
  (fst sm' = fst sm \/ snd sm' = snd sm).
Proof.
  unfold dispatch_packet, Type_getitem.
  destruct (7 <? length packet)%nat; [|intros [= <-]; auto].
  destruct (getitem packet 6) as [p6|]; cbn [bind]; [|discriminate].
  destruct (Type_value "PhaseResult"%string) as [ph|]; cbn [bind]; [|discriminate].
  destruct (p6 =? ph).
  { destruct (_phase_result_ack (fst sm) packet) as [s1|] eqn:E; cbn [bind]; [|discriminate].
    intros [= <-]. cbn [fst snd].
    destruct (phase_result_ack_keeps _ _ _ E) as (H1 & H2 & H3 & H4 & _). auto. }
  destruct (Type_value "ActualValues"%string) as [av|]; cbn [bind]; [|discriminate].
  destruct (p6 =? av).
  { destruct (_actual_values_ack (fst sm) packet) as [s1|] eqn:E; cbn [bind]; [|discriminate].
    intros [= <-]. cbn [fst snd].
    destruct (actual_values_ack_keeps _ _ _ E) as (H1 & H2 & H3 & H4 & _). auto. }
  destruct (p6 =? 90); [intros [= <-]; auto|].
  destruct (Type_value "MotomedCommandDone"%string) as [dn|]; cbn [bind]; [|discriminate].
  destruct (p6 =? dn); [intros [= <-]; cbn [fst snd]; auto|].
  destruct (existsb (Z.eqb p6) Type_values); [|intros [= <-]; auto].
  destruct (p6 =? 1); intros [= <-]; cbn [fst snd]; auto.
Qed.

(** X21: receiving never touches the sending side.  Whatever the command
    table and whatever the packets, a batch that the dispatch loop handles
    without exception leaves the packet counter, the time of the last
    command, the connected flag and the record of the last packet sent as
    they were. *)
Theorem dispatch_all_keeps_link_state (Type_value : string -> option Z)
    (Type_values : list Z) (packets : option (list (list Z)))
    (sm sm' : Rehastim * Mailboxes) :
  dispatch_all Type_value Type_values sm packets = Ok sm' ->
  time_last_cmd (fst sm') = time_last_cmd (fst sm) /\
  packet_count (fst sm') = packet_count (fst sm) /\
  reha_connected (fst sm') = reha_connected (fst sm) /\
  packet_send_history (fst sm') = packet_send_history (fst sm).
Proof.
  destruct packets as [packets|]; cbn [dispatch_all]; [|intros [= <-]; auto].
  revert sm. induction packets as [|packet packets IH]; intros sm; cbn [dispatch_list].
  - intros [= <-]. auto.
  - destruct (dispatch_packet Type_value Type_values sm packet) as [sm1|] eqn:E;
      cbn [bind]; [|discriminate].
    intros Hrest. destruct (dispatch_packet_keeps _ _ _ _ _ E) as [(H1 & H2 & H3 & H4) _].
    destruct (IH _ Hrest) as (K1 & K2 & K3 & K4).
    rewrite K1, K2, K3, K4. auto.
Qed.

Lemma dispatch_all_keeps_link_state_witness :
  let table := fun name => if String.eqb name "PhaseResult" then Some 91
                           else if String.eqb name "ActualValues" then Some 60
                           else if String.eqb name "MotomedCommandDone" then Some 89
                           else None in
  let sm := (mkRehastim 12 41 true [1; 2; 3] None None, Mailboxes_init) in
  let packets := Some [[0xF0; 0x81; 0; 0x81; 0; 0; 60; 1; 2; 0; 7; 0; 9; 0x0F];
                       [0xF0; 0x81; 0; 0x81; 0; 7; 2; 1; 0x0F];
                       [0xF0; 0x81; 0; 0x81; 0; 7; 89; 1; 0x0F]] in
  let sm' := match dispatch_all table [1; 2; 4; 60; 89; 91] sm packets with
             | Ok sm' => sm'
             | Raise _ => sm
             end in
  time_last_cmd (fst sm') = time_last_cmd (fst sm) /\
  packet_count (fst sm') = packet_count (fst sm) /\
  reha_connected (fst sm') = reha_connected (fst sm) /\
  packet_send_history (fst sm') = packet_send_history (fst sm).
Proof.
  intros table sm packets sm'.
  apply (dispatch_all_keeps_link_state table [1; 2; 4; 60; 89; 91] packets sm sm').
  vm_compute. reflexivity.
Defined.

(** X22: a telemetry packet that is too short ends the dispatch loop.
    An Actual-Values packet of 8 to 12 bytes, or a Phase-Result packet of 8
    to 22 bytes, makes the loop raise [IndexError]; the packets that follow
    it in the batch are not handled. *)
Theorem dispatch_list_truncated_telemetry (Type_value : string -> option Z)
    (Type_values : list Z) (phase actual : Z) (sm : Rehastim * Mailboxes)
    (packet : list Z) (following : list (list Z)) :
  Type_value "PhaseResult"%string = Some phase ->
  Type_value "ActualValues"%string = Some actual ->
  (has_code packet phase /\ (length packet < 23)%nat \/
   has_code packet actual /\ actual <> phase /\ (length packet <= 12)%nat) ->
  dispatch_list Type_value Type_values sm (packet :: following) = Raise IndexError.
Proof.
  intros Hph Hav Hcase. cbn [dispatch_list]. unfold dispatch_packet, Type_getitem.
  destruct Hcase as [[[Hlen Hc] Hshort]|[[Hlen Hc] [Hne Hshort]]];
    (replace (7 <? length packet)%nat with true by (symmetry; apply Nat.ltb_lt; exact Hlen));
    unfold getitem at 1; rewrite Hc; cbn [bind]; rewrite Hph; cbn [bind].
  - rewrite Z.eqb_refl. unfold _phase_result_ack.
    rewrite (decode_phase_result_short _ Hshort). reflexivity.
  - rewrite (proj2 (Z.eqb_neq actual phase) Hne), Hav. cbn [bind].
    rewrite Z.eqb_refl. unfold _actual_values_ack.
    rewrite (decode_actual_values_short _ Hshort). reflexivity.
Qed.

Lemma dispatch_list_truncated_telemetry_witness :
  dispatch_list
    (fun name => if String.eqb name "PhaseResult" then Some 91
                 else if String.eqb name "ActualValues" then Some 60 else None)
    [1; 2; 4; 60; 89; 91] (Rehastim_init, Mailboxes_init)
    ([0xF0; 0x81; 0; 0x81; 0; 0; 60; 1; 2; 0; 7; 0x0F]
     :: [[0xF0; 0x81; 0; 0x81; 0; 7; 2; 1; 0x0F]])
  = Raise IndexError.
Proof.
  apply (dispatch_list_truncated_telemetry _ _ 91 60); try reflexivity.
  right. split; [split; [cbn; lia | reflexivity]|]. split; [lia | cbn; lia].
Defined.




(** * The watchdog loop on an idle link *)

Section WatchdogRun.

Variable Type_value : string -> option Z.
Variable code : Z.
Hypothesis Watchdog_code : Type_value "Watchdog"%string = Some code.
Hypothesis Watchdog_code_byte : is_byte code.

Lemma watchdog_iteration_ready (w : World) :
  watchdog_ready w ->
  exists w' sent,
    watchdog_iteration Type_value w = Ok (Running, w') /\
    watchdog_ready w' /\
    port_written w' = port_written w ++ sent /\
    Forall (fun packet => length packet = 8%nat) sent /\
    (length sent <= 1)%nat /\
    (clock w' == clock w + inject_Z (Z.of_nat (length sent)) * 0.5)%Q.
Proof.
  intros (Hflag & Hcount & Htime).
  pose proof (is_connected_no_timeout w Htime) as Hc. rewrite Hflag in Hc.
  unfold watchdog_iteration. rewrite Hc. cbn [fst snd].
  destruct (Qlt_le_dec 0.5 (binary64 (clock w - time_last_cmd (self w))))
    as [Hdue|Hnot].
  - pose proof (packet_watchdog_ok Type_value code Watchdog_code Watchdog_code_byte
                  (self w) Hcount) as Hf.
    rewrite (watchdog_body_due Type_value w _ Hf Hdue). cbn [bind].
    eexists _, [_]. split; [reflexivity|]. split; [|split; [reflexivity|split; [|split]]].
    + split; [exact Hflag|]. cbn [self clock packet_count time_last_cmd]. split.
      * unfold is_byte. pose proof (Z.mod_pos_bound (packet_count (self w) + 1) 256). lia.
      * lra.
    + apply Forall_cons_2; [reflexivity | apply Forall_nil_2].
    + cbn. lia.
    + cbn [clock length]. change (inject_Z (Z.of_nat 1)) with 1%Q. lra.
  - rewrite (watchdog_body_not_due Type_value w) by (apply Qle_not_lt; exact Hnot).
    cbn [bind]. exists w, []. split; [reflexivity|].
    split; [exact (conj Hflag (conj Hcount Htime))|].
    split; [rewrite app_nil_r; reflexivity|].
    split; [apply Forall_nil_2|]. split; [cbn; lia|].
    cbn [length]. change (inject_Z (Z.of_nat 0)) with 0%Q. lra.
Qed.

Lemma watchdog_run_ready (delays : list Q) :
  Forall (fun d => (0 <= d)%Q) delays ->
  forall w : World,
  watchdog_ready w ->
  exists w' sent,
    _watchdog Type_value (map sleep delays) w = Ok (Running, w') /\
    watchdog_ready w' /\
    port_written w' = port_written w ++ sent /\
    Forall (fun packet => length packet = 8%nat) sent /\
    (length sent <= length delays)%nat /\
    (inject_Z (Z.of_nat (length sent)) * 0.5 <= clock w' - clock w)%Q.
Proof.
  induction 1 as [|d delays Hd _ IH]; intros w Hready.
  - exists w, []. cbn [map _watchdog]. split; [reflexivity|]. split; [exact Hready|].
    split; [rewrite app_nil_r; reflexivity|]. split; [apply Forall_nil_2|].
    split; [cbn; lia|]. cbn [length]. change (inject_Z (Z.of_nat 0)) with 0%Q. lra.
  - assert (Hready1 : watchdog_ready (sleep d w)).
    { destruct Hready as (Hflag & Hcount & Htime).
      split; [exact Hflag|]. split; [exact Hcount|]. cbn [sleep self clock]. lra. }
    destruct (watchdog_iteration_ready _ Hready1)
      as (w1 & sent1 & Hit & Hready2 & Hport1 & Hall1 & Hlen1 & Hclock1).
    destruct (IH w1 Hready2) as (w' & sent & Hrun & Hready' & Hport & Hall & Hlen & Hclock).
    exists w', (sent1 ++ sent). cbn [map _watchdog]. rewrite Hit. cbn [bind fst snd].
    split; [exact Hrun|]. split; [exact Hready'|]. split; [|split; [|split]].
    + rewrite Hport, Hport1, <- app_assoc. reflexivity.
    + apply Forall_app_2; assumption.
    + rewrite length_app. cbn [length]. lia.
    + rewrite length_app, Nat2Z.inj_add, inject_Z_plus.
      cbn [sleep clock] in Hclock1. lra.
Qed.

End WatchdogRun.

(** X24: the watchdog loop on a connected link where nothing happens but
    the passing of time.  Whatever the delays between its turns, the loop
    raises no exception, does not stop and leaves the flag set; what it
    writes to the port are packets of 8 bytes added after those already
    written, at most one per turn, and the clock has advanced by at least
    0.5 s for each of them. *)
Theorem watchdog_idle_run (Type_value : string -> option Z) (code : Z)
    (delays : list Q) (w : World) :
  Type_value "Watchdog"%string = Some code -> is_byte code ->
  reha_connected (self w) = true ->
  is_byte (packet_count (self w)) ->
  (time_last_cmd (self w) <= clock w)%Q ->
  Forall (fun d => (0 <= d)%Q) delays ->
  exists w' sent,
    _watchdog Type_value (map sleep delays) w = Ok (Running, w') /\
    reha_connected (self w') = true /\
    port_written w' = port_written w ++ sent /\
    Forall (fun packet => length packet = 8%nat) sent /\
    (length sent <= length delays)%nat /\
    (inject_Z (Z.of_nat (length sent)) * 0.5 <= clock w' - clock w)%Q.
Proof.
  intros HT Hcode Hflag Hcount Htime Hdelays.
  destruct (watchdog_run_ready Type_value code HT Hcode delays Hdelays w
              (conj Hflag (conj Hcount Htime)))
    as (w' & sent & Hrun & (Hflag' & _) & Hrest).
  exists w', sent. split; [exact Hrun|]. split; [exact Hflag' | exact Hrest].
Qed.

Lemma watchdog_idle_run_witness :
  let w := mkWorld (mkRehastim 0 255 true [] None None) 0 [] in
  let delays := [0.3; 0.3; 0.1; 0.2; 0.4]%Q in
  exists w' sent,
    _watchdog Type_example (map sleep delays) w = Ok (Running, w') /\
    reha_connected (self w') = true /\
    port_written w' = port_written w ++ sent /\
    Forall (fun packet => length packet = 8%nat) sent /\
    (length sent <= length delays)%nat /\
    (inject_Z (Z.of_nat (length sent)) * 0.5 <= clock w' - clock w)%Q.
Proof.
  intros w delays.
  apply (watchdog_idle_run Type_example 4 delays w).
  - reflexivity.
  - unfold is_byte. lia.
  - reflexivity.
  - unfold is_byte. cbn. lia.
  - cbn. apply Qle_bool_iff. reflexivity.
  - repeat (apply Forall_cons_2; [apply Qle_bool_iff; reflexivity|]). apply Forall_nil_2.
Defined.

Example watchdog_idle_run_four_packets :
  let w := mkWorld (mkRehastim 0 255 true [] None None) 0 [] in
  match _watchdog Type_example (map sleep [0.3; 0.3; 0.1; 0.2; 0.4]%Q) w with
  | Ok (state, w') =>
      state = Running /\
      port_written w' = [[0xF0; 0x81; 0x9E; 0x81; 0x57; 255; 4; 0x0F];
                         [0xF0; 0x81; 0x49; 0x81; 0x57; 0; 4; 0x0F];
                         [0xF0; 0x81; 0x5C; 0x81; 0x57; 1; 4; 0x0F];
                         [0xF0; 0x81; 0x63; 0x81; 0x57; 2; 4; 0x0F]] /\
      packet_count (self w') = 3
  | Raise _ => False
  end.
Proof. vm_compute. repeat split; reflexivity. Qed.

(** * The initialisation mailbox and the errors of the encoder *)

(** X25: the initialisation acknowledgement has its own mailbox.  A
    packet whose command byte is 1 goes to [last_init_ack] and leaves a
    waiting acknowledgement in [last_ack] alone: [_get_last_ack(init=True)]
    returns the packet, [_get_last_ack()] still returns the acknowledgement
    that was waiting, and both mailboxes are then empty. *)
Theorem dispatch_init_ack_then_get (Type_value : string -> option Z) (Type_values : list Z)
    (phase actual done : Z) (s : Rehastim) (m : Mailboxes) (packet waiting : list Z) :
  Type_value "PhaseResult"%string = Some phase ->
  Type_value "ActualValues"%string = Some actual ->
  Type_value "MotomedCommandDone"%string = Some done ->
  has_code packet 1 -> phase <> 1 -> actual <> 1 -> done <> 1 -> In 1 Type_values ->
  last_ack m = Some waiting -> waiting <> [] ->
  exists m' m1 m2,
    dispatch_packet Type_value Type_values (s, m) packet = Ok (s, m') /\
    _get_last_ack_motomed true m' = Some (packet, m1) /\
    _get_last_ack_motomed false m1 = Some (waiting, m2) /\
    last_ack m2 = None /\ last_init_ack m2 = None.
Proof.
  intros Hph Hav Hdn Hc Hp Ha Hd Hin Hwait Hne.
  rewrite (dispatch_packet_init_ack Type_value Type_values phase actual done Hph Hav Hdn
             (s, m) packet Hc Hp Ha Hd Hin).
  cbn [fst snd].
  destruct packet as [|b rest]; [destruct Hc as [Hlen _]; cbn in Hlen; lia|].
  destruct waiting as [|b' rest']; [congruence|].
  eexists _, _, _. split; [reflexivity|].
  unfold _get_last_ack_motomed. cbn. rewrite Hwait.
  split; [reflexivity|]. split; [reflexivity|]. split; reflexivity.
Qed.

Lemma dispatch_init_ack_then_get_witness :
  let table := fun name => if String.eqb name "PhaseResult" then Some 91
                           else if String.eqb name "ActualValues" then Some 60
                           else if String.eqb name "MotomedCommandDone" then Some 89
                           else None in
  let packet := [0xF0; 0x81; 0; 0x81; 0; 0; 1; 1; 0x0F] in
  let waiting := [0xF0; 0x81; 0; 0x81; 0; 8; 4; 0; 0x0F] in
  let m := mkMailboxes (Some waiting) None false true in
  exists m' m1 m2,
    dispatch_packet table [1; 2; 4; 60; 89; 91] (Rehastim_init, m) packet
    = Ok (Rehastim_init, m') /\
    _get_last_ack_motomed true m' = Some (packet, m1) /\
    _get_last_ack_motomed false m1 = Some (waiting, m2) /\
    last_ack m2 = None /\ last_init_ack m2 = None.
Proof.
  intros table packet waiting m.
  apply (dispatch_init_ack_then_get table [1; 2; 4; 60; 89; 91] 91 60 89);
    try reflexivity; try lia.
  - split; [cbn; lia | reflexivity].
  - cbn [In]. lia.
  - discriminate.
Defined.

Lemma to_bytes_not_byte (b : Z) : ~ is_byte b -> to_bytes b = Raise OverflowError.
Proof.
  unfold is_byte, to_bytes. intros Hn.
  destruct (Z.leb_spec 0 b), (Z.leb_spec b 255); cbn [andb]; try reflexivity. lia.
Qed.

Lemma join_bytes_not_bytes (packet : list Z) :
  ~ Forall is_byte packet -> join_bytes packet = Raise OverflowError.
Proof.
  induction packet as [|b packet IH]; intros Hn.
  - exfalso. apply Hn. apply Forall_nil_2.
  - cbn [join_bytes].
    destruct (Z_le_dec 0 b) as [Hlo|Hlo]; [destruct (Z_le_dec b 255) as [Hhi|Hhi]|].
    + rewrite (to_bytes_is_byte b (conj Hlo Hhi)). cbn [bind]. rewrite IH; [reflexivity|].
      intros Hall. apply Hn. apply Forall_cons_2; [exact (conj Hlo Hhi) | exact Hall].
    + rewrite to_bytes_not_byte by (unfold is_byte; lia). reflexivity.
    + rewrite to_bytes_not_byte by (unfold is_byte; lia). reflexivity.
Qed.

Lemma in_STUFFED_BYTES_is_byte (b : Z) : in_STUFFED_BYTES b = true -> is_byte b.
Proof.
  intros H. apply in_STUFFED_BYTES_spec in H. unfold is_byte.
  destruct H as [->|[->|[->|[->| ->]]]]; lia.
Qed.

Lemma stuffed_header_byte_is_byte_inv (b : Z) : is_byte (stuffed_header_byte b) -> is_byte b.
Proof.
  unfold stuffed_header_byte. destruct (in_STUFFED_BYTES b) eqn:E; [|trivial].
  intros _. apply in_STUFFED_BYTES_is_byte, E.
Qed.

Lemma stuffed_data_is_byte_inv (data : list Z) :
  Forall is_byte (concat (map stuffed_data_byte data)) -> Forall is_byte data.
Proof.
  induction data as [|b data IH]; cbn [map concat]; intros H; [apply Forall_nil_2|].
  apply Forall_app in H as [Hb Hrest]. apply Forall_cons_2; [|apply IH, Hrest].
  unfold stuffed_data_byte in Hb. destruct (in_STUFFED_BYTES b) eqn:E.
  - apply in_STUFFED_BYTES_is_byte, E.
  - apply Forall_inv in Hb. exact Hb.
Qed.

(** X26: the exceptions of the encoder.  A command name that the table
    does not hold raises [KeyError].  For a name it holds, the encoder
    returns a packet exactly when the packet number, the command code and
    every payload byte fit one byte and the payload block has at most 255
    bytes; otherwise it raises [OverflowError], and nothing else. *)
Theorem packet_construction_exceptions (Type_value : string -> option Z)
    (packet_count : Z) (packet_type : string) (packet_data : option (list Z)) :
  (Type_value packet_type = None ->
   _packet_construction Type_value packet_count packet_type packet_data = Raise KeyError) /\
  (forall packet_command,
     Type_value packet_type = Some packet_command ->
     let fits :=
       is_byte packet_count /\ is_byte packet_command /\
       Forall is_byte (default [] packet_data) /\
       (length (payload_block packet_count packet_command packet_data) <= 255)%nat in
     (fits -> exists packet,
        _packet_construction Type_value packet_count packet_type packet_data = Ok packet) /\
     (~ fits ->
      _packet_construction Type_value packet_count packet_type packet_data =
      Raise OverflowError)).
Proof.
  split.
  - intros HT. unfold _packet_construction. rewrite HT. reflexivity.
  - intros packet_command HT fits. split.
    + intros (Hc & Hk & Hd & Hlen). eexists.
      exact (packet_construction_ok Type_value _ _ _ _ HT Hc Hk Hd Hlen).
    + intros Hn. rewrite (packet_construction_unfold _ _ _ _ _ HT). cbv zeta.
      apply join_bytes_not_bytes. intros Hall. apply Hn.
      set (block := payload_block packet_count packet_command packet_data) in *.
      apply Forall_cons in Hall as [_ Hall]. apply Forall_cons in Hall as [_ Hall].
      apply Forall_cons in Hall as [_ Hall]. apply Forall_cons in Hall as [_ Hall].
      apply Forall_cons in Hall as [Hlen Hall]. apply Forall_app in Hall as [Hblock _].
      assert (Hlen' : (length block <= 255)%nat).
      { destruct (Nat.le_gt_cases (length block) 255) as [Hle|Hgt]; [exact Hle|].
        pose proof (lxor_key_above_byte (Z.of_nat (length block)) ltac:(lia)) as Habove.
        unfold is_byte in Hlen. lia. }
      unfold block, payload_block in Hblock. apply Forall_app in Hblock as [Hhead Hdata].
      cbn [map] in Hhead. apply Forall_cons in Hhead as [Hc Hhead].
      apply Forall_cons in Hhead as [Hk _].
      unfold fits. split; [apply stuffed_header_byte_is_byte_inv, Hc|].
      split; [apply stuffed_header_byte_is_byte_inv, Hk|].
      split; [apply stuffed_data_is_byte_inv, Hdata | exact Hlen'].
Qed.

Lemma packet_construction_exceptions_witness :
  _packet_construction Type_example 3 "GetStimulationMode" None = Raise KeyError /\
  _packet_construction Type_example 256 "Watchdog" None = Raise OverflowError /\
  _packet_construction Type_example 3 "Watchdog" (Some [1; -1]) = Raise OverflowError.
Proof.
  split; [|split].
  - apply (proj1 (packet_construction_exceptions Type_example 3 "GetStimulationMode" None)).
    reflexivity.
  - apply (proj2 (proj2 (packet_construction_exceptions Type_example 256 "Watchdog" None)
                    4 eq_refl)).
    unfold is_byte. lia.
  - apply (proj2 (proj2 (packet_construction_exceptions Type_example 3 "Watchdog"
                           (Some [1; -1])) 4 eq_refl)).
    intros (_ & _ & Hd & _). apply Forall_inv_tail, Forall_inv in Hd.
    unfold is_byte in Hd. lia.
Defined.
